(** * Solvent registry and resolver of autodE ([autode/solvent/solvents.py])

    A shallow embedding of [get_solvent], the [Solvent] / [ImplicitSolvent]
    classes, the [solvents] registry and the dielectric table, followed by
    the properties of the resolver that the specification states.

    Conventions of the embedding:
    - a Python [str] is a [string]; all data of the module is ASCII and
      [lower] is the ASCII part of [str.lower]: on text that [is_ascii]
      the two agree, and statements about the lower-case form of text
      that comes from the caller are made for such text;
    - a Python object that can be mutated has an address in a [Heap];
      where identity does not matter an object is given by its value;
    - a Python [int] is a [Z]; [None]-able arguments are [option]s;
    - a raised exception is the [Raise] branch of [Result];
    - [logger.warning] calls are collected in a list of messages;
    - a dielectric constant is the decimal number the source writes, as
      a [Q];
    - instance attributes injected through [**kwargs] live in a
      [gmap string string] (the instance [__dict__]). *)

From Stdlib Require Import Ascii String QArith.
From stdpp Require Import base strings list gmap.

Local Open Scope string_scope.
Local Open Scope Z_scope.

(** ** Strings *)

(** [str.lower] on one ASCII character: ['A'..'Z'] move to ['a'..'z']. *)
Definition lower_ascii (c : ascii) : ascii :=
  let n := N_of_ascii c in
  if ((65 <=? n) && (n <=? 90))%N then ascii_of_N (n + 32) else c.

Fixpoint lower (s : string) : string :=
  match s with
  | EmptyString => EmptyString
  | String c s' => String (lower_ascii c) (lower s')
  end.

(** [str.isascii]: every character is below 128. On such text [lower] is
    [str.lower]; other text is lower-cased by Python with the Unicode
    rules, which [lower] does not follow. *)
Definition isascii_char (c : ascii) : bool := (N_of_ascii c <? 128)%N.

Fixpoint is_ascii (s : string) : bool :=
  match s with
  | EmptyString => true
  | String c s' => isascii_char c && is_ascii s'
  end.

(** [x in l] for a list (or tuple) of strings: Python compares with [==]. *)
Definition str_in (x : string) (l : list string) : bool :=
  existsb (String.eqb x) l.

Definition startswith (p s : string) : bool := String.prefix p s.

Fixpoint endswith_char (c : ascii) (s : string) : bool :=
  match s with
  | EmptyString => false
  | String a EmptyString => Ascii.eqb a c
  | String _ s' => endswith_char c s'
  end.

(** [posixpath.join], one step of its loop and the loop itself. *)
Definition join_step (path b : string) : string :=
  if startswith "/" b then b
  else if String.eqb path "" || endswith_char "/" path then path ++ b
  else path ++ "/" ++ b.

Definition os_path_join (a : string) (p : list string) : string :=
  foldl join_step a p.

(** ** Exceptions, results and the log *)

Inductive Exception : Type :=
  | ValueError (msg : string)
  | SolventNotFound (msg : string)
  | IOError (msg : string).

Inductive Result (A : Type) : Type :=
  | Ok (x : A)
  | Raise (e : Exception).
Arguments Ok {A} x.
Arguments Raise {A} e.

Definition is_ValueError {A} (r : Result A) : bool :=
  match r with Raise (ValueError _) => true | _ => false end.
Definition is_SolventNotFound {A} (r : Result A) : bool :=
  match r with Raise (SolventNotFound _) => true | _ => false end.
Definition is_IOError {A} (r : Result A) : bool :=
  match r with Raise (IOError _) => true | _ => false end.
Definition is_Ok {A} (r : Result A) : bool :=
  match r with Ok _ => true | _ => false end.

(** One [logger.warning] call. *)
Inductive LogRecord : Type := Warning (msg : string).

(** A Python [dict] built from its items in order: a later item with the
    same key replaces the earlier one. *)
Definition dict {V : Type} (items : list (string * V)) : gmap string V :=
  foldl (fun d kv => <[kv.1 := kv.2]> d) ∅ items.

(** ** The solvent classes *)

(** The concrete class of a [Solvent] instance; it fixes the abstract
    property [is_implicit]. Only [ImplicitSolvent] is defined in the
    module; [is_explicit] is [not is_implicit]. *)
Inductive SolventClass : Type := ImplicitSolventClass | ExplicitSolventClass.

Record Solvent : Type := mkSolvent {
  cls : SolventClass;
  name : string;
  smiles : option string;
  aliases : list string;
  attrs : gmap string string
}.

Definition is_implicit (s : Solvent) : bool :=
  match cls s with ImplicitSolventClass => true | ExplicitSolventClass => false end.

Definition is_explicit (s : Solvent) : bool := negb (is_implicit s).

(** [Solvent.__init__]. *)
Definition Solvent_init (c : SolventClass) (name : string)
    (smiles : option string) (aliases : option (list string))
    (kwargs : gmap string string) : Solvent :=
  let self_aliases := [lower name] in
  let self_aliases :=
    match aliases with
    | Some aliases => (self_aliases ++ map lower aliases)%list
    | None => self_aliases
    end in
  let self_dict := kwargs ∪ (∅ : gmap string string) in
  let self_dict :=
    match kwargs !! "g09" with
    | Some v => <["g16" := v]> self_dict
    | None => self_dict
    end in
  mkSolvent c name smiles self_aliases self_dict.

Definition ImplicitSolvent (name : string) (smiles : option string)
    (aliases : option (list string)) (kwargs : list (string * string)) : Solvent :=
  Solvent_init ImplicitSolventClass name smiles aliases (dict kwargs).

(** [Solvent.__str__] and [Solvent.__repr__]. *)
Definition Solvent_str (s : Solvent) : string := name s.
Definition Solvent_repr (s : Solvent) : string := "Solvent(" ++ name s ++ ")".

(** [Solvent.__eq__]: [other] is [None] or a solvent. *)
Definition option_str_eqb (a b : option string) : bool :=
  match a, b with
  | Some x, Some y => String.eqb x y
  | None, None => true
  | _, _ => false
  end.

Definition Solvent_eq (self : Solvent) (other : option Solvent) : bool :=
  match other with
  | None => false
  | Some other =>
      String.eqb (name self) (name other)
      && option_str_eqb (smiles self) (smiles other)
  end.


Definition solvents : list Solvent :=
  [
    ImplicitSolvent "water" (Some "O") (Some ["water"; "h2o"])
      [("orca", "water"); ("g09", "Water"); ("nwchem", "water"); ("xtb", "Water"); ("mopac", "water"); ("qchem", "water")];
    ImplicitSolvent "dichloromethane" (Some "ClCCl") (Some ["dichloromethane"; "methyl dichloride"; "dcm"])
      [("orca", "dichloromethane"); ("g09", "Dichloromethane"); ("nwchem", "dcm"); ("xtb", "CH2Cl2"); ("mopac", "dichloromethane"); ("qchem", "dichloromethane")];
    ImplicitSolvent "acetone" (Some "CC(C)=O") (Some ["acetone"; "propanone"])
      [("orca", "acetone"); ("g09", "Acetone"); ("nwchem", "acetone"); ("xtb", "Acetone"); ("mopac", "acetone"); ("qchem", "acetone")];
    ImplicitSolvent "acetonitrile" (Some "CC#N") (Some ["acetonitrile"; "mecn"; "ch3cn"])
      [("orca", "acetonitrile"); ("g09", "Acetonitrile"); ("nwchem", "acetntrl"); ("xtb", "Acetonitrile"); ("mopac", "acetonitrile"); ("qchem", "acetonitrile")];
    ImplicitSolvent "benzene" (Some "C1=CC=CC=C1") (Some ["benzene"; "cyclohexatriene"])
      [("orca", "benzene"); ("g09", "Benzene"); ("nwchem", "benzene"); ("xtb", "Benzene"); ("mopac", "benzene"); ("qchem", "benzene")];
    ImplicitSolvent "trichloromethane" (Some "ClC(Cl)Cl") (Some ["chloroform"; "trichloromethane"; "chcl3"; "methyl trichloride"])
      [("orca", "chloroform"); ("g09", "Chloroform"); ("nwchem", "chcl3"); ("xtb", "CHCl3"); ("mopac", "chloroform"); ("qchem", "trichloromethane")];
    ImplicitSolvent "cs2" (Some "S=C=S") (Some ["cs2"; "methanedithione"; "carbon bisulfide"])
      [("orca", "carbon disulfide"); ("g09", "CarbonDiSulfide"); ("nwchem", "cs2"); ("xtb", "CS2"); ("mopac", "cs2"); ("qchem", "carbon disulfide")];
    ImplicitSolvent "dmf" (Some "O=CN(C)C") (Some ["dmf"; "dimethylformamide"; "n,n-dimethylformamide"])
      [("orca", "n,n-dimethylformamide"); ("g09", "n,n-DiMethylFormamide"); ("nwchem", "dmf"); ("xtb", "DMF"); ("mopac", "n,n-dimethylformamide"); ("qchem", "dimethylformamide")];
    ImplicitSolvent "dmso" (Some "O=S(C)C") (Some ["dmso"; "dimethylsulfoxide"])
      [("orca", "dimethylsulfoxide"); ("g09", "DiMethylSulfoxide"); ("nwchem", "dmso"); ("xtb", "DMSO"); ("mopac", "dmso")];
    ImplicitSolvent "diethyl ether" (Some "CCOCC") (Some ["diethyl ether"; "ether"; "Ethoxyethane"])
      [("orca", "diethyl ether"); ("g09", "DiethylEther"); ("nwchem", "ether"); ("xtb", "Ether"); ("mopac", "ether"); ("qchem", "diethyl ether")];
    ImplicitSolvent "methanol" (Some "CO") (Some ["methanol"; "meoh"])
      [("orca", "methanol"); ("g09", "Methanol"); ("nwchem", "methanol"); ("xtb", "Methanol"); ("mopac", "methanol"); ("qchem", "ethanol")];
    ImplicitSolvent "hexane" (Some "CCCCCC") (Some ["hexane"; "n-hexane"])
      [("orca", "n-hexane"); ("g09", "n-Hexane"); ("nwchem", "hexane"); ("xtb", "n-Hexane"); ("mopac", "hexane"); ("qchem", "hexane")];
    ImplicitSolvent "thf" (Some "C1CCOC1") (Some ["thf"; "tetrahydrofuran"; "oxolane"])
      [("orca", "tetrahydrofuran"); ("g09", "TetraHydroFuran"); ("nwchem", "thf"); ("xtb", "THF"); ("mopac", "tetrahydrofuran"); ("qchem", "tetrahydrofuran")];
    ImplicitSolvent "toluene" (Some "CC1=CC=CC=C1") (Some ["toluene"; "methylbenzene"; "phenyl methane"])
      [("orca", "toluene"); ("g09", "Toluene"); ("nwchem", "toluene"); ("xtb", "Toluene"); ("mopac", "toluene"); ("qchem", "benzene")];
    ImplicitSolvent "acetic acid" (Some "CC(O)=O") (Some ["acetic acid"; "ethanoic acid"])
      [("orca", "acetic acid"); ("g09", "AceticAcid"); ("nwchem", "acetacid"); ("mopac", "acetic acid"); ("qchem", "acetic acid")];
    ImplicitSolvent "1-butanol" (Some "CCCCO") (Some ["1-butanol"; "butanol"; "n-butanol"; "butan-1-ol"])
      [("orca", "1-butanol"); ("g09", "1-Butanol"); ("nwchem", "butanol"); ("mopac", "1-butanol"); ("qchem", "1-butanol")];
    ImplicitSolvent "2-butanol" (Some "CC(O)CC") (Some ["2-butanol"; "sec-butanol"; "butan-2-ol"])
      [("orca", "2-butanol"); ("g09", "2-Butanol"); ("nwchem", "butanol2"); ("mopac", "2-butanol"); ("qchem", "sec-butanol")];
    ImplicitSolvent "acetophenone" (Some "CC(C1=CC=CC=C1)=O") (Some ["acetophenone"; "phenylacetone"; "phenylethanone"])
      [("orca", "acetophenone"); ("g09", "AcetoPhenone"); ("nwchem", "acetphen"); ("mopac", "acetophenone"); ("qchem", "acetone")];
    ImplicitSolvent "aniline" (Some "NC1=CC=CC=C1") (Some ["aniline"; "benzenamine"; "phenylamine"])
      [("orca", "aniline"); ("g09", "Aniline"); ("nwchem", "aniline"); ("mopac", "aniline"); ("qchem", "aniline")];
    ImplicitSolvent "anisole" (Some "COC1=CC=CC=C1") (Some ["anisole"; "methoxybenzene"; "phenoxymethane"])
      [("orca", "anisole"); ("g09", "Anisole"); ("nwchem", "anisole"); ("mopac", "anisole"); ("qchem", "anisole")];
    ImplicitSolvent "benzaldehyde" (Some "O=CC1=CC=CC=C1") (Some ["benzaldehyde"; "phenylmethanal"])
      [("orca", "benzaldehyde"); ("g09", "Benzaldehyde"); ("nwchem", "benzaldh"); ("mopac", "benzaldehyde"); ("qchem", "benzaldehyde")];
    ImplicitSolvent "benzonitrile" (Some "N#CC1=CC=CC=C1") (Some ["benzonitrile"; "cyanobenzene"; "phenyl cyanide"])
      [("orca", "benzonitrile"); ("g09", "BenzoNitrile"); ("nwchem", "benzntrl"); ("mopac", "benzonitrile"); ("qchem", "benzene")];
    ImplicitSolvent "benzyl chloride" (Some "ClCC1=CC=CC=C1") (Some ["benzyl chloride"; "(chloromethyl)benzene"; "Chloromethyl benzene"; "a-chlorotoluene"])
      [("orca", "a-chlorotoluene"); ("g09", "a-ChloroToluene"); ("nwchem", "benzylcl"); ("mopac", "benzyl chloride"); ("qchem", "benzene")];
    ImplicitSolvent "1-bromo-2-methylpropane" (Some "CC(C)CBr") (Some ["1-bromo-2-methylpropane"; "isobutyl bromide"])
      [("orca", "1-bromo-2-methylpropane"); ("g09", "1-Bromo-2-MethylPropane"); ("nwchem", "brisobut"); ("mopac", "isobutyl bromide"); ("qchem", "1-bromo-2-methylpropane")];
    ImplicitSolvent "bromobenzene" (Some "BrC1=CC=CC=C1") (Some ["bromobenzene"; "phenyl bromide"])
      [("orca", "bromobenzene"); ("g09", "BromoBenzene"); ("nwchem", "brbenzen"); ("mopac", "bromobenzene"); ("qchem", "benzene")];
    ImplicitSolvent "bromoethane" (Some "CCBr") (Some ["bromoethane"; "ethyl bromide"; "etbr"])
      [("orca", "bromoethane"); ("g09", "BromoEthane"); ("nwchem", "brethane"); ("mopac", "bromoethane"); ("qchem", "bromoethane")];
    ImplicitSolvent "bromoform" (Some "BrC(Br)Br") (Some ["bromoform"; "tribromomethane"; "methyl tribromide"; "chbr3"])
      [("orca", "bromoform"); ("g09", "Bromoform"); ("nwchem", "bromform"); ("mopac", "bromoform"); ("qchem", "tribromomethane")];
    ImplicitSolvent "1-bromooctane" (Some "CCCCCCCCBr") (Some ["1-bromooctane"; "bromooctane"; "octyl bromide"; "1-octyl bromide"])
      [("orca", "1-bromooctane"); ("g09", "1-BromoOctane"); ("nwchem", "broctane"); ("mopac", "bromooctane"); ("qchem", "bromooctane")];
    ImplicitSolvent "1-bromopentane" (Some "CCCCCBr") (Some ["1-bromopentane"; "bromopentane"; "pentyl bromide"])
      [("orca", "1-bromopentane"); ("g09", "1-BromoPentane"); ("nwchem", "brpentan"); ("mopac", "bromopentane"); ("qchem", "1-bromopentane")];
    ImplicitSolvent "butantal" (Some "CCCC=O") (Some ["butanal"; "butyraldehyde"])
      [("orca", "butanal"); ("g09", "Butanal"); ("nwchem", "butanal"); ("mopac", "butanal"); ("qchem", "butanal")];
    ImplicitSolvent "butanone" (Some "CC(CC)=O") (Some ["butanone"; "2-butanone"; "butan-2-one"; "methyl ethyl ketone"; "ethyl methyl ketone"])
      [("orca", "butanone"); ("g09", "Butanone"); ("nwchem", "butanone"); ("mopac", "2-butanone"); ("qchem", "butanone")];
    ImplicitSolvent "carbon tetrachloride" (Some "ClC(Cl)(Cl)Cl") (Some ["carbon tetrachloride"; "ccl4"; "tetrachloromethane"])
      [("orca", "carbon tetrachloride"); ("g09", "CarbonTetraChloride"); ("nwchem", "carbntet"); ("mopac", "carbon tetrachloride"); ("qchem", "carbon tetrachloride")];
    ImplicitSolvent "chlorobenzene" (Some "ClC1=CC=CC=C1") (Some ["chlorobenzene"; "benzene chloride"; "phenyl chloride"])
      [("orca", "chlorobenzene"); ("g09", "ChloroBenzene"); ("nwchem", "clbenzen"); ("mopac", "chlorobenzene"); ("qchem", "benzene")];
    ImplicitSolvent "cyclohexane" (Some "C1CCCCC1") (Some ["cyclohexane"])
      [("orca", "cyclohexane"); ("g09", "CycloHexane"); ("nwchem", "cychexan"); ("mopac", "cyclohexane"); ("qchem", "cyclohexane")];
    ImplicitSolvent "1,2-dichlorobenzene" (Some "ClC1=CC=CC=C1Cl") (Some ["1,2-dichlorobenzene"; "o-dichlorobenzene"; "ortho-dichlorobenzene"])
      [("orca", "o-dichlorobenzene"); ("g09", "o-DiChloroBenzene"); ("nwchem", "odiclbnz"); ("mopac", "1,2-dichlorobenzene"); ("qchem", "benzene")];
    ImplicitSolvent "n,n-dimethylacetamide" (Some "CC(N(C)C)=O") (Some ["n,n-dimethylacetamide"; "dmac"; "dma"; "dimethylacetamide"])
      [("orca", "n,n-dimethylacetamide"); ("g09", "n,n-DiMethylAcetamide"); ("nwchem", "dma"); ("mopac", "n,n-dimethylacetamide"); ("qchem", "dimethylacetamide")];
    ImplicitSolvent "dioxane" (Some "O1CCOCC1") (Some ["dioxane"; "1,4-dioxane"; "p-dioxane"])
      [("orca", "1,4-dioxane"); ("g09", "1,4-Dioxane"); ("nwchem", "dioxane"); ("mopac", "1,4-dioxane"); ("qchem", "1,4-dioxane")];
    ImplicitSolvent "ethyl acetate" (Some "CC(OCC)=O") (Some ["ethyl acetate"; "etoac"; "ethyl ethanoate"])
      [("orca", "ethyl ethanoate"); ("g09", "EthylEthanoate"); ("nwchem", "etoac"); ("mopac", "ethyl acetate")];
    ImplicitSolvent "ethanol" (Some "CCO") (Some ["ethanol"; "ethyl alcohol"; "etoh"])
      [("orca", "ethanol"); ("g09", "Ethanol"); ("nwchem", "ethanol"); ("mopac", "ethyl alcohol"); ("qchem", "ethanol")];
    ImplicitSolvent "heptane" (Some "CCCCCCC") (Some ["heptane"; "n-heptane"])
      [("orca", "n-heptane"); ("g09", "Heptane"); ("nwchem", "heptane"); ("mopac", "heptane"); ("qchem", "heptane")];
    ImplicitSolvent "pentane" (Some "CCCCC") (Some ["pentane"; "n-pentane"])
      [("orca", "n-pentane"); ("g09", "n-Pentane"); ("nwchem", "npentane"); ("mopac", "pentane"); ("qchem", "pentane")];
    ImplicitSolvent "1-propanol" (Some "CCCO") (Some ["1-propanol"; "propanol"; "n-propaol"; "n-proh"])
      [("orca", "1-propanol"); ("g09", "1-Propanol"); ("nwchem", "propanol"); ("mopac", "1-propanol"); ("qchem", "1-propanol")];
    ImplicitSolvent "pyridine" (Some "C1=NC=CC=C1") (Some ["pyridine"])
      [("orca", "pyridine"); ("g09", "Pyridine"); ("nwchem", "pyridine"); ("mopac", "pyridine"); ("qchem", "pyridine")];
    ImplicitSolvent "1,1,1-trichloroethane" (Some "CC(Cl)(Cl)Cl") (Some ["1,1,1-trichloroethane"; "methyl chloroform"; "1,1,1-tca"])
      [("orca", "1,1,1-trichloroethane"); ("g09", "1,1,1-TriChloroEthane"); ("nwchem", "tca111"); ("mopac", "1,1,1-trichloroethane"); ("qchem", "1,1,1-trichloroethane")];
    ImplicitSolvent "cyclopentane" (Some "C1CCCC1") (Some ["cyclopentane"])
      [("orca", "cyclopentane"); ("g09", "CycloPentane"); ("nwchem", "cycpentn"); ("mopac", "cyclopentane"); ("qchem", "cyclopentane")];
    ImplicitSolvent "1,1,2-trichloroethane" (Some "ClCC(Cl)Cl") (Some ["1,1,2-trichloroethane"; "vinyl trichloride"; "1,1,2-tca"])
      [("orca", "1,1,2-trichloroethane"); ("g09", "1,1,2-TriChloroEthane"); ("nwchem", "tca112"); ("mopac", "1,1,2-trichloroethane"); ("qchem", "1,1,2-trichloroethane")];
    ImplicitSolvent "cyclopentanol" (Some "OC1CCCC1") (Some ["cyclopentanol"])
      [("orca", "cyclopentanol"); ("g09", "CycloPentanol"); ("nwchem", "cycpntol"); ("mopac", "cyclopentanol"); ("qchem", "cyclopentanol")];
    ImplicitSolvent "1,2,4-trimethylbenzene" (Some "CC1=CC=C(C)C(C)=C1") (Some ["1,2,4-trimethylbenzene"; "pseudocumene"])
      [("orca", "1,2,4-trimethylbenzene"); ("g09", "1,2,4-TriMethylBenzene"); ("nwchem", "tmben124"); ("mopac", "1,2,4-trimethylbenzene"); ("qchem", "1,2,4-trimethylbenzene")];
    ImplicitSolvent "cyclopentanone" (Some "O=C1CCCC1") (Some ["cyclopentanone"])
      [("orca", "cyclopentanone"); ("g09", "CycloPentanone"); ("nwchem", "cycpnton"); ("mopac", "cyclopentanone"); ("qchem", "cyclopentanone")];
    ImplicitSolvent "1,2-dibromoethane" (Some "BrCCBr") (Some ["1,2-dibromoethane"; "ethylene dibromide"; "edb"])
      [("orca", "1,2-dibromoethane"); ("g09", "1,2-DiBromoEthane"); ("nwchem", "edb12"); ("mopac", "1,2-dibromoethane"); ("qchem", "bromoethane")];
    ImplicitSolvent "1,2-dichloroethane" (Some "ClCCCl") (Some ["1,2-dichloroethane"; "ethylene dichloride"; "dce"; "dichloroethane"])
      [("orca", "1,2-dichloroethane"); ("g09", "DiChloroEthane"); ("nwchem", "edc12"); ("mopac", "1,2-dichloroethane")];
    ImplicitSolvent "cis-decalin" (Some "[H][C@@]12CCCC[C@]1([H])CCCC2") (Some ["cis-decalin"; "cis decalin"])
      [("orca", "cis-decalin"); ("g09", "Cis-Decalin"); ("nwchem", "declncis"); ("mopac", "cis-decalin"); ("qchem", "decalin")];
    ImplicitSolvent "trans-decalin" (Some "[H][C@@]12CCCC[C@@]1([H])CCCC2") (Some ["trans-decalin"; "trans decalin"])
      [("orca", "trans-decalin"); ("g09", "trans-Decalin"); ("nwchem", "declntra"); ("mopac", "trans-decalin"); ("qchem", "decalin")];
    ImplicitSolvent "decalin mix" (Some "C12CCCCC1CCCC2") (Some ["decalin mix"; "decalin"; "decalin mixture"])
      [("orca", "decalin"); ("g09", "Decalin-mixture"); ("nwchem", "declnmix"); ("mopac", "decalin"); ("qchem", "decalin")];
    ImplicitSolvent "1,2-ethanediol" (Some "OCCO") (Some ["1,2-ethanediol"; "ethylene glycol"; "ethane-1,2-diol"; "monoethylene glycol"])
      [("orca", "1,2-ethanediol"); ("g09", "1,2-EthaneDiol"); ("nwchem", "meg"); ("mopac", "1,2-ethanediol"); ("qchem", "ethylene glycol")];
    ImplicitSolvent "decane" (Some "CCCCCCCCCC") (Some ["decane"; "n-decane"])
      [("orca", "n-decane"); ("g09", "n-Decane"); ("nwchem", "decane"); ("mopac", "decane"); ("qchem", "decane")];
    ImplicitSolvent "dibromomethane" (Some "BrCBr") (Some ["dibromomethane"; "methyl dibromide"])
      [("orca", "dibromomethane"); ("g09", "DiBromomEthane"); ("nwchem", "dibrmetn"); ("mopac", "dibromomethane"); ("qchem", "dibromomethane")];
    ImplicitSolvent "dibutylether" (Some "CCCCOCCCC") (Some ["dibutylether"; "butyl ether"])
      [("orca", "dibutylether"); ("g09", "DiButylEther"); ("nwchem", "butyleth"); ("mopac", "dibutylether")];
    ImplicitSolvent "cis-1,2-dichloroethene" (Some "Cl/C=C\Cl") (Some ["cis-1,2-dichloroethene"; "cis-1,2-dichloroethylene"; "z-1,2-dichloroethene"; "z-1,2-dichloroethylene"])
      [("orca", "z-1,2-dichloroethene"); ("g09", "z-1,2-DiChloroEthene"); ("nwchem", "c12dce"); ("mopac", "z-1,2-dichloroethene"); ("qchem", "z-1,2-dichloroethene")];
    ImplicitSolvent "trans-1,2-dichloroethen" (Some "Cl/C=C/Cl") (Some ["trans-1,2-dichloroethene"; "trans-1,2-dichloroethylene"; "e-1,2-dichloroethene"; "e-1,2-dichloroethylene"])
      [("orca", "e-1,2-dichloroethene"); ("g09", "e-1,2-DiChloroEthene"); ("nwchem", "t12dce"); ("mopac", "z-1,2-dichloroethene"); ("qchem", "E-1,2-dichloroethene")];
    ImplicitSolvent "1-bromopropane" (Some "CCCBr") (Some ["1-bromopropane"; "bromopropane"])
      [("orca", "1-bromopropane"); ("g09", "1-BromoPropane"); ("nwchem", "brpropan"); ("mopac", "1-bromopropane"); ("qchem", "1-bromopropane")];
    ImplicitSolvent "2-bromopropane" (Some "CC(Br)C") (Some ["2-bromopropane"; "isopropyl bromide"])
      [("orca", "2-bromopropane"); ("g09", "2-BromoPropane"); ("nwchem", "brpropa2"); ("mopac", "2-bromopropane"); ("qchem", "2-bromopropane")];
    ImplicitSolvent "1-chlorohexane" (Some "CCCCCCCl") (Some ["1-chlorohexane"; "chlorohexane"])
      [("orca", "1-chlorohexane"); ("g09", "1-ChloroHexane"); ("nwchem", "clhexane"); ("mopac", "1-chlorohexane"); ("qchem", "hexane")];
    ImplicitSolvent "1-chloropentane" (Some "CCCCCCl") (Some ["1-chloropentane"; "chloropentane"])
      [("orca", "1-chloropentane"); ("g09", "1-ChloroPentane"); ("nwchem", "clpentan"); ("mopac", "1-chloropentane"); ("qchem", "1-chloropentane")];
    ImplicitSolvent "1-chloropropane" (Some "CCCCl") (Some ["1-chloropropane"; "chloropropane"])
      [("orca", "1-chloropropane"); ("g09", "1-ChloroPropane"); ("nwchem", "clpropan"); ("mopac", "1-chloropropane"); ("qchem", "1-chloropropane")];
    ImplicitSolvent "diethylamine" (Some "CCNCC") (Some ["diethylamine"; "n-ethylethanamine"])
      [("orca", "diethylamine"); ("g09", "DiEthylAmine"); ("nwchem", "dietamin"); ("mopac", "diethylamine"); ("qchem", "diethylamine")];
    ImplicitSolvent "1-decanol" (Some "CCCCCCCCCCO") (Some ["1-decanol"; "decanol"; "decan-1-ol"])
      [("orca", "1-decanol"); ("g09", "1-Decanol"); ("nwchem", "decanol"); ("mopac", "decanol"); ("qchem", "1-decanol")];
    ImplicitSolvent "diiodomethane" (Some "ICI") (Some ["diiodomethane"; "methylene iodide"])
      [("orca", "diiodomethane"); ("g09", "DiIodoMethane"); ("nwchem", "mi"); ("mopac", "diiodomethane"); ("qchem", "diiodomethane")];
    ImplicitSolvent "1-fluorooctane" (Some "CCCCCCCCF") (Some ["1-fluorooctane"; "fluorooctane"; "octyl fluoride"])
      [("orca", "1-fluorooctane"); ("g09", "1-FluoroOctane"); ("nwchem", "foctane"); ("mopac", "1-fluorooctane"); ("qchem", "1-fluorooctane")];
    ImplicitSolvent "1-heptanol" (Some "CCCCCCCO") (Some ["1-helptanol"; "heptanol"; "heptan-1-ol"])
      [("orca", "1-helptanol"); ("g09", "1-Heptanol"); ("nwchem", "heptanol"); ("mopac", "heptanol"); ("qchem", "1-heptanol")];
    ImplicitSolvent "cis-1,2-dimethylcyclohexane" (Some "C[C@@H]1[C@H](C)CCCC1") (Some ["cis-1,2-dimethylcyclohexane"])
      [("orca", "cis-1,2-dimethylcyclohexane"); ("g09", "Cis-1,2-DiMethylCycloHexane"); ("nwchem", "cisdmchx"); ("mopac", "cisdmchx"); ("qchem", "cis-1,2-dimethylcyclohexane")];
    ImplicitSolvent "diethyl sulfide" (Some "CCSCC") (Some ["diethyl sulfide"; "et2s"; "thioethyl ether"])
      [("orca", "diethyl sulfide"); ("g09", "DiEthylSulfide"); ("nwchem", "et2s"); ("mopac", "diethyl sulfide")];
    ImplicitSolvent "diisopropyl ether" (Some "CC(OC(C)C)C") (Some ["diisopropyl ether"; "dipe"])
      [("orca", "diisopropyl ether"); ("g09", "DiIsoPropylEther"); ("nwchem", "dipe"); ("mopac", "diisopropyl ether"); ("qchem", "isopropyl ether")];
    ImplicitSolvent "1-hexanol" (Some "CCCCCCO") (Some ["1-hexanol"; "hexanol"; "haxan-1-ol"])
      [("orca", "1-hexanol"); ("g09", "1-Hexanol"); ("nwchem", "hexanol"); ("mopac", "hexanol"); ("qchem", "1-hexanol")];
    ImplicitSolvent "1-hexene" (Some "C=CCCCC") (Some ["1-hexene"; "hexene"; "hex-1-ene"])
      [("orca", "1-hexene"); ("g09", "1-Hexene"); ("nwchem", "hexene"); ("mopac", "hexene"); ("qchem", "1-hexene")];
    ImplicitSolvent "1-hexyne" (Some "C#CCCCC") (Some ["1-hexyne"; "hexyne"; "hex-1-yne"])
      [("orca", "1-hexyne"); ("g09", "1-Hexyne"); ("nwchem", "hexyne"); ("mopac", "hexyne"); ("qchem", "1-hexyne")];
    ImplicitSolvent "1-iodobutane" (Some "CCCCI") (Some ["1-iodobutane"; "iodobutane"])
      [("orca", "1-iodobutane"); ("g09", "1-IodoButane"); ("nwchem", "iobutane"); ("mopac", "iodobutane"); ("qchem", "1-iodobutane")];
    ImplicitSolvent "1-iodohexadecane" (Some "CCCCCCCCCCCCCCCCI") (Some ["1-iodohexadecane"; "iodohexadecane"])
      [("orca", "1-iodohexadecane"); ("g09", "1-IodoHexaDecane"); ("nwchem", "iohexdec"); ("mopac", "1-iodohexadecane"); ("qchem", "decane")];
    ImplicitSolvent "diphenylether" (Some "C1(OC2=CC=CC=C2)=CC=CC=C1") (Some ["diphenylether"; "phenoxybenzene"])
      [("orca", "diphenylether"); ("g09", "DiPhenylEther"); ("nwchem", "phoph"); ("mopac", "diphenylether"); ("qchem", "benzene")];
    ImplicitSolvent "1-iodopentane" (Some "CCCCCI") (Some ["1-iodopentane"; "iodopentane"])
      [("orca", "1-iodopentane"); ("g09", "1-IodoPentane"); ("nwchem", "iopentan"); ("mopac", "1-iodopentane"); ("qchem", "pentane")];
    ImplicitSolvent "1-iodopropane" (Some "CCCI") (Some ["1-iodopropane"; "iodopropane"])
      [("orca", "1-iodopropane"); ("g09", "1-IodoPropane"); ("nwchem", "iopropan"); ("mopac", "1-iodopropane"); ("qchem", "1-iodopropane")];
    ImplicitSolvent "dipropylamine" (Some "CCCNCCC") (Some ["dipropylamine"])
      [("orca", "dipropylamine"); ("g09", "DiPropylAmine"); ("nwchem", "dproamin"); ("mopac", "dipropylamine"); ("qchem", "dipropylamine")];
    ImplicitSolvent "n-dodecane" (Some "CCCCCCCCCCCC") (Some ["n-dodecane"; "dodecane"])
      [("orca", "n-dodecane"); ("g09", "n-Dodecane"); ("nwchem", "dodecan"); ("mopac", "dodecane"); ("qchem", "decane")];
    ImplicitSolvent "1-nitropropane" (Some "CCC[N+]([O-])=O") (Some ["1-nitropropane"])
      [("orca", "1-nitropropane"); ("g09", "1-NitroPropane"); ("nwchem", "ntrprop1"); ("mopac", "1-nitropropane"); ("qchem", "1-nitropropane")];
    ImplicitSolvent "ethanethiol" (Some "CCS") (Some ["ethanethiol"; "ethane thiol"; "etsh"])
      [("orca", "ethanethiol"); ("g09", "EthaneThiol"); ("nwchem", "etsh"); ("mopac", "ethanethiol"); ("qchem", "ethanethiol")];
    ImplicitSolvent "1-nonanol" (Some "CCCCCCCCCO") (Some ["1-nonanol"; "nonanol"; "nonan-1-ol"])
      [("orca", "1-nonanol"); ("g09", "1-Nonanol"); ("nwchem", "nonanol"); ("mopac", "nonanol"); ("qchem", "1-nonanol")];
    ImplicitSolvent "1-octanol" (Some "CCCCCCCCO") (Some ["1-octanol"; "octanol"; "octan-1-ol"])
      [("orca", "1-octanol"); ("g09", "n-Octanol"); ("nwchem", "octanol"); ("mopac", "octanol"); ("qchem", "1-octanol")];
    ImplicitSolvent "1-pentanol" (Some "CCCCCO") (Some ["1-pentanol"; "pentanol"; "pentan-1-ol"])
      [("orca", "1-pentanol"); ("g09", "1-Pentanol"); ("nwchem", "pentanol"); ("mopac", "pentanol"); ("qchem", "1-pentanol")];
    ImplicitSolvent "1-pentene" (Some "C=CCCC") (Some ["1-pentene"; "pentene"; "pent-1-ene"])
      [("orca", "1-pentene"); ("g09", "1-Pentene"); ("nwchem", "pentene"); ("mopac", "pentene"); ("qchem", "1-pentene")];
    ImplicitSolvent "ethyl benzene" (Some "CCC1=CC=CC=C1") (Some ["ethyl benzene"; "ethylbenzene"; "phenylethane"])
      [("orca", "ethylbenzene"); ("g09", "EthylBenzene"); ("nwchem", "eb"); ("mopac", "ethylbenzene"); ("qchem", "benzene")];
    ImplicitSolvent "2,2,2-trifluoroethanol" (Some "FC(F)(F)CO") (Some ["2,2,2-trifluoroethanol"])
      [("orca", "2,2,2-trifluoroethanol"); ("g09", "2,2,2-TriFluoroEthanol"); ("nwchem", "tfe222"); ("mopac", "2,2,2-trifluoroethanol"); ("qchem", "ethanol")];
    ImplicitSolvent "fluorobenzene" (Some "FC1=CC=CC=C1") (Some ["fluorobenzene"; "phenyl fluoride"; "c6h5f"])
      [("orca", "fluorobenzene"); ("g09", "FluoroBenzene"); ("nwchem", "c6h5f"); ("mopac", "fluorobenzene"); ("qchem", "benzene")];
    ImplicitSolvent "2,2,4-trimethylpentane" (Some "CC(C)(C)CC(C)C") (Some ["2,2,4-trimethylpentane"; "isooctane"])
      [("orca", "2,2,4-trimethylpentane"); ("g09", "2,2,4-TriMethylPentane"); ("nwchem", "isoctane"); ("mopac", "2,2,4-trimethylpentane"); ("qchem", "2,2,4-trimethylpentane")];
    ImplicitSolvent "formamide" (Some "O=CN") (Some ["formamide"])
      [("orca", "formamide"); ("g09", "Formamide"); ("nwchem", "formamid"); ("mopac", "formamide"); ("qchem", "formamide")];
    ImplicitSolvent "2,4-dimethylpentane" (Some "CC(C)CC(C)C") (Some ["2,4-dimethylpentane"; "diisopropylmethane"])
      [("orca", "2,4-dimethylpentane"); ("g09", "2,4-DiMethylPentane"); ("nwchem", "dmepen24"); ("mopac", "2,4-dimethylpentane"); ("qchem", "2,4-dimethylpentane")];
    ImplicitSolvent "2,4-dimethylpyridine" (Some "CC1=CC(C)=NC=C1") (Some ["2,4-dimethylpyridine"; "2,4-lutidine"])
      [("orca", "2,4-dimethylpyridine"); ("g09", "2,4-DiMethylPyridine"); ("nwchem", "dmepyr24"); ("mopac", "2,4-dimethylpyridine"); ("qchem", "2,4-dimethylpyridine")];
    ImplicitSolvent "2,6-dimethylpyridine" (Some "CC1=CC=CC(C)=N1") (Some ["2,6-dimethylpyridine"; "2,6-lutidine"; "lutidine"])
      [("orca", "2,6-dimethylpyridine"); ("g09", "2,6-DiMethylPyridine"); ("nwchem", "dmepyr26"); ("mopac", "2,6-dimethylpyridine"); ("qchem", "2,6-dimethylpyridine")];
    ImplicitSolvent "n-hexadecane" (Some "CCCCCCCCCCCCCCCC") (Some ["n-hexadecane"; "hexadecane"])
      [("orca", "n-hexadecane"); ("g09", "n-Hexadecane"); ("nwchem", "hexadecn"); ("mopac", "hexadecane"); ("qchem", "decane")];
    ImplicitSolvent "dimethyl disulfide" (Some "CSSC") (Some ["dimethyl disulfide"; "dmds"; "methyl disulfide"])
      [("orca", "dimethyl disulfide"); ("g09", "DiMethylDiSulfide"); ("nwchem", "dmds"); ("mopac", "dimethyl disulfide")];
    ImplicitSolvent "ethyl methanoate" (Some "O=COCC") (Some ["ethyl methanoate"; "ethyl formate"; "etome"])
      [("orca", "ethyl methanoate"); ("g09", "EthylMethanoate"); ("nwchem", "etome"); ("mopac", "ethyl methanoate")];
    ImplicitSolvent "ethyl phenyl ether" (Some "CCOC1=CC=CC=C1") (Some ["ethyl phenyl ether"; "phenetole"; "ethoxybenzene"])
      [("orca", "ethyl phenyl ether"); ("g09", "EthylPhenylEther"); ("nwchem", "phentol"); ("mopac", "phenetole"); ("qchem", "benzene")];
    ImplicitSolvent "formic acid" (Some "O=CO") (Some ["formic acid"; "methanoic acid"])
      [("orca", "formic acid"); ("g09", "FormicAcid"); ("nwchem", "formacid"); ("mopac", "formic acid"); ("qchem", "formic acid")];
    ImplicitSolvent "hexanoic acid" (Some "CCCCCC(O)=O") (Some ["hexanoic acid"; "caproic acid"])
      [("orca", "hexanoic acid"); ("g09", "HexanoicAcid"); ("nwchem", "hexnacid"); ("mopac", "hexanoic acid"); ("qchem", "hexanoic acid")];
    ImplicitSolvent "2-chlorobutane" (Some "CC(Cl)CC") (Some ["2-chlorobutane"; "sec-butyl chloride"])
      [("orca", "2-chlorobutane"); ("g09", "2-ChloroButane"); ("nwchem", "secbutcl"); ("mopac", "2-chlorobutane"); ("qchem", "2-chlorobutane")];
    ImplicitSolvent "2-heptanone" (Some "CC(CCCCC)=O") (Some ["2-heptanone"; "heptan-2-one"])
      [("orca", "2-heptanone"); ("g09", "2-Heptanone"); ("nwchem", "heptnon2"); ("mopac", "2-heptanone"); ("qchem", "2-heptanone")];
    ImplicitSolvent "2-hexanone" (Some "CC(CCCC)=O") (Some ["2-hexanone"; "hexan-2-one"])
      [("orca", "2-hexanone"); ("g09", "2-Hexanone"); ("nwchem", "hexanon2"); ("mopac", "2-hexanone"); ("qchem", "2-hexanone")];
    ImplicitSolvent "2-methoxyethanol" (Some "COCCO") (Some ["2-methoxyethanol"; "egme"])
      [("orca", "2-methoxyethanol"); ("g09", "2-MethoxyEthanol"); ("nwchem", "egme"); ("mopac", "2-methoxyethanol"); ("qchem", "ethanol")];
    ImplicitSolvent "2-methyl-1-propanol" (Some "CC(C)CO") (Some ["2-methyl-1-propanol"; "isobutanol"])
      [("orca", "2-methyl-1-propanol"); ("g09", "2-Methyl-1-Propanol"); ("nwchem", "isobutol"); ("mopac", "isobutanol"); ("qchem", "1-propanol")];
    ImplicitSolvent "2-methyl-2-propanol" (Some "CC(O)(C)C") (Some ["2-methyl-2-propanol"; "tert-butanol"])
      [("orca", "2-methyl-2-propanol"); ("g09", "2-Methyl-2-Propanol"); ("nwchem", "terbutol"); ("mopac", "tertbutanol"); ("qchem", "2-propanol")];
    ImplicitSolvent "2-methylpentane" (Some "CC(C)CCC") (Some ["2-methylpentane"; "isohexane"])
      [("orca", "2-methylpentane"); ("g09", "2-MethylPentane"); ("nwchem", "isohexan"); ("mopac", "2-methylpentane"); ("qchem", "2-methylpentane")];
    ImplicitSolvent "2-methylpyridine" (Some "CC1=NC=CC=C1") (Some ["2-methylpyridine"; "2-picoline"])
      [("orca", "2-methylpyridine"); ("g09", "2-MethylPyridine"); ("nwchem", "mepyrid2"); ("mopac", "2-methylpyridine"); ("qchem", "2-methylpyridine")];
    ImplicitSolvent "2-nitropropane" (Some "CC([N+]([O-])=O)C") (Some ["2-nitropropane"])
      [("orca", "2-nitropropane"); ("g09", "2-NitroPropane"); ("nwchem", "ntrprop2"); ("mopac", "2-nitropropane"); ("qchem", "2-nitropropane")];
    ImplicitSolvent "2-octanone" (Some "CC(CCCCCC)=O") (Some ["2-octanone"; "octan-2-one"])
      [("orca", "2-octanone"); ("g09", "2-Octanone"); ("nwchem", "octanon2"); ("mopac", "2-octanone"); ("qchem", "2-octanone")];
    ImplicitSolvent "2-pentanone" (Some "CC(CCC)=O") (Some ["2-pentanone"; "pentan-2-one"])
      [("orca", "2-pentanone"); ("g09", "2-Pentanone"); ("nwchem", "pentnon2"); ("mopac", "2-pentanone"); ("qchem", "2-pentanone")];
    ImplicitSolvent "iodobenzene" (Some "IC1=CC=CC=C1") (Some ["iodobenzene"; "phenyl iodide"])
      [("orca", "iodobenzene"); ("g09", "IodoBenzene"); ("nwchem", "c6h5i"); ("mopac", "iodobenzene"); ("qchem", "benzene")];
    ImplicitSolvent "iodoethane" (Some "CCI") (Some ["iodoethane"; "ethyl iodide"])
      [("orca", "iodoethane"); ("g09", "IodoEthane"); ("nwchem", "c2h5i"); ("mopac", "iodoethane"); ("qchem", "iodoethane")];
    ImplicitSolvent "iodomethane" (Some "CI") (Some ["iodomethane"; "methyl iodide"; "mei"; "ch3i"])
      [("orca", "iodomethane"); ("g09", "IodoMethane"); ("nwchem", "ch3i"); ("mopac", "iodomethane"); ("qchem", "iodomethane")];
    ImplicitSolvent "isopropylbenzene" (Some "CC(C1=CC=CC=C1)C") (Some ["isopropylbenzene"; "cumene"])
      [("orca", "isopropylbenzene"); ("g09", "IsoPropylBenzene"); ("nwchem", "cumene"); ("mopac", "isopropylbenzene"); ("qchem", "benzene")];
    ImplicitSolvent "p-isopropyltoluene" (Some "CC1=CC=C(C(C)C)C=C1") (Some ["p-isopropyltoluene"; "para-isopropyltoluene"; "p-cymene"])
      [("orca", "p-isopropyltoluene"); ("g09", "p-IsoPropylToluene"); ("nwchem", "p-cymene"); ("mopac", "p-cymene"); ("qchem", "isopropyltoluene")];
    ImplicitSolvent "mesitylene" (Some "CC1=CC(C)=CC(C)=C1") (Some ["mesitylene"])
      [("orca", "mesitylene"); ("g09", "Mesitylene"); ("nwchem", "mesityln"); ("mopac", "mesitylene"); ("qchem", "mesitylene")];
    ImplicitSolvent "methyl benzoate" (Some "O=C(OC)C1=CC=CC=C1") (Some ["methyl benzoate"])
      [("orca", "methyl benzoate"); ("g09", "MethylBenzoate"); ("nwchem", "mebnzate"); ("mopac", "methyl benzoate")];
    ImplicitSolvent "methyl butanoate" (Some "CCCC(OC)=O") (Some ["methyl butanoate"; "methyl butyrate"])
      [("orca", "methyl butanoate"); ("g09", "MethylButanoate"); ("nwchem", "mebutate"); ("mopac", "methyl butanoate")];
    ImplicitSolvent "methyl ethanoate" (Some "CC(OC)=O") (Some ["methyl ethanoate"; "methyl acetate"])
      [("orca", "methyl ethanoate"); ("g09", "MethylEthanoate"); ("nwchem", "meacetat"); ("mopac", "methyl acetate")];
    ImplicitSolvent "methyl methanoate" (Some "O=COC") (Some ["methyl methanoate"; "methyl formate"])
      [("orca", "methyl methanoate"); ("g09", "MethylMethanoate"); ("nwchem", "meformat"); ("mopac", "methyl formate")];
    ImplicitSolvent "methyl propanoate" (Some "CCC(OC)=O") (Some ["methyl propanoate"; "methyl propionate"])
      [("orca", "methyl propanoate"); ("g09", "MethylPropanoate"); ("nwchem", "mepropyl"); ("mopac", "methyl propanoate")];
    ImplicitSolvent "n-methylaniline" (Some "CNC1=CC=CC=C1") (Some ["n-methylaniline"; "nma"])
      [("orca", "n-methylaniline"); ("g09", "n-MethylAniline"); ("nwchem", "nmeaniln"); ("mopac", "n-methylaniline"); ("qchem", "aniline")];
    ImplicitSolvent "methylcyclohexane" (Some "CC1CCCCC1") (Some ["methylcyclohexane"])
      [("orca", "methylcyclohexane"); ("g09", "MethylCycloHexane"); ("nwchem", "mecychex"); ("mopac", "methylcyclohexane"); ("qchem", "cyclohexane")];
    ImplicitSolvent "n-methylformamide (e/z mixture)" (Some "O=CNC") (Some ["n-methylformamide"; "n-methylformamide (e/z mixture)"; "n-methylformamide mixture"; "n-methylformamide mix"])
      [("orca", "n-methylformamide (e/z mixture)"); ("g09", "n-MethylFormamide-mixture"); ("nwchem", "nmfmixtr"); ("mopac", "nmfmixtr"); ("qchem", "formamide")];
    ImplicitSolvent "nitrobenzene" (Some "O=[N+](C1=CC=CC=C1)[O-]") (Some ["nitrobenzene"; "phno2"])
      [("orca", "nitrobenzene"); ("g09", "NitroBenzene"); ("nwchem", "c6h5no2"); ("mopac", "nitrobenzene"); ("qchem", "benzene")];
    ImplicitSolvent "nitroethane" (Some "CC[N+]([O-])=O") (Some ["nitroethane"; "etno2"])
      [("orca", "nitroethane"); ("g09", "NitroEthane"); ("nwchem", "c2h5no2"); ("mopac", "nitroethane"); ("qchem", "nitroethane")];
    ImplicitSolvent "nitromethane" (Some "C[N+]([O-])=O") (Some ["nitromethane"; "meno2"; "ch3no2"])
      [("orca", "nitromethane"); ("g09", "NitroMethane"); ("nwchem", "ch3no2"); ("mopac", "nitromethane"); ("qchem", "nitromethane")];
    ImplicitSolvent "o-nitrotoluene" (Some "CC1=CC=CC=C1[N+]([O-])=O") (Some ["o-nitrotoluene"; "ortho-nitrotoluene"])
      [("orca", "o-nitrotoluene"); ("g09", "o-NitroToluene"); ("nwchem", "ontrtolu"); ("mopac", "o-nitrotoluene"); ("qchem", "o-nitrotoluene")];
    ImplicitSolvent "n-nonane" (Some "CCCCCCCCC") (Some ["n-nonane"; "nonane"])
      [("orca", "n-nonane"); ("g09", "n-Nonane"); ("nwchem", "nonane"); ("mopac", "n-nonane"); ("qchem", "nonane")];
    ImplicitSolvent "n-octane" (Some "CCCCCCCC") (Some ["n-octane"; "octane"])
      [("orca", "n-octane"); ("g09", "n-Octane"); ("nwchem", "octane"); ("mopac", "n-octane"); ("qchem", "octane")];
    ImplicitSolvent "n-pentadecane" (Some "CCCCCCCCCCCCCCC") (Some ["n-pentadecane"; "pentadecane"])
      [("orca", "n-pentadecane"); ("g09", "n-Pentadecane"); ("nwchem", "pentdecn"); ("mopac", "n-pentadecane"); ("qchem", "decane")];
    ImplicitSolvent "pentanal" (Some "CCCCC=O") (Some ["pentanal"])
      [("orca", "pentanal"); ("g09", "Pentanal"); ("nwchem", "pentanal"); ("mopac", "pentanal"); ("qchem", "pentanal")];
    ImplicitSolvent "pentanoic acid" (Some "CCCCC(O)=O") (Some ["pentanoic acid"; "valeric acid"])
      [("orca", "pentanoic acid"); ("g09", "PentanoicAcid"); ("nwchem", "pentacid"); ("mopac", "pentanoic acid"); ("qchem", "pentanoic acid")];
    ImplicitSolvent "pentyl ethanoate" (Some "CC(OCCCCC)=O") (Some ["pentyl ethanoate"; "pentyl acetate"])
      [("orca", "pentyl ethanoate"); ("g09", "PentylEthanoate"); ("nwchem", "pentacet"); ("mopac", "pentyl acetate")];
    ImplicitSolvent "pentyl amine" (Some "NCCCCC") (Some ["pentyl amine"; "pentylamine"; "1-aminopentane"])
      [("orca", "pentylamine"); ("g09", "PentylAmine"); ("nwchem", "pentamin"); ("mopac", "pentylamine"); ("qchem", "pentane")];
    ImplicitSolvent "perfluorobenzene" (Some "FC1=C(F)C(F)=C(F)C(F)=C1F") (Some ["perfluorobenzene"; "pfb"; "c6f6"; "hexafluorobenzene"])
      [("orca", "perfluorobenzene"); ("g09", "PerFluoroBenzene"); ("nwchem", "pfb"); ("mopac", "perfluorobenzene"); ("qchem", "benzene")];
    ImplicitSolvent "propanal" (Some "CCC=O") (Some ["propanal"])
      [("orca", "propanal"); ("g09", "Propanal"); ("nwchem", "propanal"); ("mopac", "propanal"); ("qchem", "propanal")];
    ImplicitSolvent "propanoic acid" (Some "CCC(O)=O") (Some ["propanoic acid"; "propionic acid"])
      [("orca", "propanoic acid"); ("g09", "PropanoicAcid"); ("nwchem", "propacid"); ("mopac", "propanoic acid"); ("qchem", "propanoic acid")];
    ImplicitSolvent "propanenitrile" (Some "CCC#N") (Some ["propanenitrile"; "cyanoethane"; "ethyl cyanide"; "propanonitrile"])
      [("orca", "propanonitrile"); ("g09", "PropanoNitrile"); ("nwchem", "propntrl"); ("mopac", "cyanoethane"); ("qchem", "propanonitrile")];
    ImplicitSolvent "propyl ethanoate" (Some "CC(OCCC)=O") (Some ["propyl ethanoate"; "propyl acetate"])
      [("orca", "propyl ethanoate"); ("g09", "PropylEthanoate"); ("nwchem", "propacet"); ("mopac", "propyl acetate")];
    ImplicitSolvent "propyl amine" (Some "NCCC") (Some ["propyl amine"; "propylamine"; "1-aminopropane"])
      [("orca", "propylamine"); ("g09", "PropylAmine"); ("nwchem", "propamin"); ("mopac", "propylamine"); ("qchem", "propylamine")];
    ImplicitSolvent "tetrachloroethene" (Some "Cl/C(Cl)=C(Cl)/Cl") (Some ["tetrachloroethene"; "perchloroethene"; "pce"; "c2cl4"])
      [("orca", "tetrachloroethene"); ("g09", "TetraChloroEthene"); ("nwchem", "c2cl4"); ("mopac", "tetrachloroethene"); ("qchem", "tetrachloroethene")];
    ImplicitSolvent "tetrahydrothiophene-s,s-dioxide" (Some "O=S1(CCCC1)=O") (Some ["tetrahydrothiophene-s,s-dioxide"; "sulfolane"])
      [("orca", "tetrahydrothiophene-s,s-dioxide"); ("g09", "TetraHydroThiophene-s,s-dioxide"); ("nwchem", "sulfolan"); ("mopac", "sulfolane"); ("qchem", "thiophene")];
    ImplicitSolvent "tetralin" (Some "C12=C(CCCC2)C=CC=C1") (Some ["tetralin"; "1,2,3,4-tetrahydronaphthalene"; "tetrahydronaphthalene"])
      [("orca", "tetralin"); ("g09", "Tetralin"); ("nwchem", "tetralin"); ("mopac", "tetralin"); ("qchem", "tetralin")];
    ImplicitSolvent "thiophene" (Some "C1=CC=CS1") (Some ["thiophene"])
      [("orca", "thiophene"); ("g09", "Thiophene"); ("nwchem", "thiophen"); ("mopac", "thiophene"); ("qchem", "thiophene")];
    ImplicitSolvent "thiophenol" (Some "SC1=CC=CC=C1") (Some ["thiophenol"; "phsh"; "benzenethiol"])
      [("orca", "thiophenol"); ("g09", "Thiophenol"); ("nwchem", "phsh"); ("mopac", "thiophenol"); ("qchem", "benzene")];
    ImplicitSolvent "tributylphosphate" (Some "O=P(OCCCC)(OCCCC)OCCCC") (Some ["tributylphopshate"; "tbp"; "tributyl phopshate"])
      [("orca", "tributylphopshate"); ("g09", "TriButylPhosphate"); ("nwchem", "tbp"); ("mopac", "tbp"); ("qchem", "tributylphosphate")];
    ImplicitSolvent "trichloroethene" (Some "Cl/C(Cl)=C/Cl") (Some ["trichloroethene"; "tce"])
      [("orca", "trichloroethene"); ("g09", "TriChloroEthene"); ("nwchem", "tce"); ("mopac", "tce"); ("qchem", "trichloroethene")];
    ImplicitSolvent "triethylamine" (Some "CCN(CC)CC") (Some ["triethylamine"; "et3n"])
      [("orca", "triethylamine"); ("g09", "TriEthylAmine"); ("nwchem", "et3n"); ("mopac", "triethylamine"); ("qchem", "triethylamine")];
    ImplicitSolvent "n-undecane" (Some "CCCCCCCCCCC") (Some ["n-undecane"; "undecane"])
      [("orca", "n-undecane"); ("g09", "n-Undecane"); ("nwchem", "undecane"); ("mopac", "n-undecane"); ("qchem", "decane")];
    ImplicitSolvent "xylene mixture" (Some "CC1=CC=C(C)C=C1") (Some ["xylene mix"; "xylene (mix)"; "xylene mixture"; "xylene (mixture)"; "xylene"])
      [("orca", "xyzlene (mixture)"); ("g09", "Xylene-mixture"); ("nwchem", "xylenemx"); ("mopac", "xylene mix")];
    ImplicitSolvent "m-xylene" (Some "CC1=CC=CC(C)=C1") (Some ["m-xylene"; "meta-xylene"; "1,3-xylene"])
      [("orca", "m-xylene"); ("g09", "m-Xylene"); ("nwchem", "m-xylene"); ("mopac", "m-xylene"); ("qchem", "m-xylene")];
    ImplicitSolvent "o-xylene" (Some "CC1=CC=CC=C1C") (Some ["o-xylene"; "ortho-xylene"; "1,2-xylene"])
      [("orca", "o-xylene"); ("g09", "o-Xylene"); ("nwchem", "o-xylene"); ("mopac", "o-xylene"); ("qchem", "o-xylene")];
    ImplicitSolvent "p-xylene" (Some "CC1=CC=C(C)C=C1") (Some ["p-xylene"; "para-xylene"; "1,4-xylene"])
      [("orca", "p-xylene"); ("g09", "p-Xylene"); ("nwchem", "p-xylene"); ("mopac", "p-xylene"); ("qchem", "p-xylene")];
    ImplicitSolvent "2-propanol" (Some "CC(O)C") (Some ["2-propanol"; "propan-2-ol"; "isopropanol"; "isopropyl alcohol"])
      [("orca", "2-propanol"); ("g09", "2-Propanol"); ("nwchem", "propnol2"); ("mopac", "2-propanol"); ("qchem", "2-propanol")];
    ImplicitSolvent "2-propen-1-ol" (Some "C=CCO") (Some ["2-propen-1-ol"; "allyl alcohol"])
      [("orca", "2-propen-1-ol"); ("g09", "2-Propen-1-ol"); ("nwchem", "propenol"); ("mopac", "2-propen-1-ol"); ("qchem", "2-propen-1-ol")];
    ImplicitSolvent "e-2-pentene" (Some "C/C=C/CC") (Some ["e-2-pentene"; "e-pent-2-ene"])
      [("orca", "e-2-pentene"); ("g09", "e-2-Pentene"); ("nwchem", "e2penten"); ("mopac", "e-2-pentene"); ("qchem", "E-2-pentene")];
    ImplicitSolvent "3-methylpyridine" (Some "CC1=CC=CN=C1") (Some ["3-methylpyridine"; "3-picoline"])
      [("orca", "3-methylpyridine"); ("g09", "3-MethylPyridine"); ("nwchem", "mepyrid3"); ("mopac", "3-methylpyridine"); ("qchem", "3-methylpyridine")];
    ImplicitSolvent "3-pentanone" (Some "CCC(CC)=O") (Some ["3-pentanone"; "pentan-3-one"])
      [("orca", "3-pentanone"); ("g09", "3-Pentanone"); ("nwchem", "pentnon3"); ("mopac", "3-pentanone"); ("qchem", "3-pentanone")];
    ImplicitSolvent "4-heptanone" (Some "CCCC(CCC)=O") (Some ["4-heptanone"; "heptan-4-one"])
      [("orca", "4-heptanone"); ("g09", "4-Heptanone"); ("nwchem", "heptnon4"); ("mopac", "4-heptanone"); ("qchem", "4-heptanone")];
    ImplicitSolvent "4-methyl-2-pentanone" (Some "CC(CC(C)C)=O") (Some ["4-methyl-2-pentanone"; "methyl isobutyl ketone"])
      [("orca", "4-methyl-2-pentanone"); ("g09", "4-Methyl-2-Pentanone"); ("nwchem", "mibk"); ("mopac", "mibk"); ("qchem", "2-pentanone")];
    ImplicitSolvent "4=methylpyridine" (Some "CC1=CC=NC=C1") (Some ["4-methylpyridine"; "4-picoline"])
      [("orca", "4-methylpyridine"); ("g09", "4-MethylPyridine"); ("nwchem", "mepyrid4"); ("mopac", "4-methylpyridine"); ("qchem", "4-methylpyridine")];
    ImplicitSolvent "5-nonanone" (Some "CCCCC(CCCC)=O") (Some ["5-nonanone"; "nonan-5-one"])
      [("orca", "5-nonanone"); ("g09", "5-Nonanone"); ("nwchem", "nonanone"); ("mopac", "5-nonanone"); ("qchem", "5-nonanone")];
    ImplicitSolvent "benzyl alcohol" (Some "OCC1=CC=CC=C1") (Some ["benzyl alcohol"; "phenylmethanol"; "bnoh"])
      [("orca", "benzyl alcohol"); ("g09", "BenzylAlcohol"); ("nwchem", "benzalcl"); ("mopac", "benzyl alcohol"); ("qchem", "benzyl alcohol")];
    ImplicitSolvent "butanoic acid" (Some "CCCC(O)=O") (Some ["butanoic acid"; "butyric acid"])
      [("orca", "butanoic acid"); ("g09", "ButanoicAcid"); ("nwchem", "butacid"); ("mopac", "butanoic acid")];
    ImplicitSolvent "butanenitrile" (Some "CCCC#N") (Some ["butanenitrile"; "butyronitrile"; "butanonitrile"])
      [("orca", "butanonitrile"); ("g09", "ButanoNitrile"); ("nwchem", "butantrl"); ("mopac", "butanenitrile"); ("qchem", "butanonitrile")];
    ImplicitSolvent "butyl ethanoate" (Some "CC(OCCCC)=O") (Some ["butyl ethanoate"; "butyl acetate"])
      [("orca", "butyl ethanoate"); ("g09", "ButylEthanoate"); ("nwchem", "butile"); ("mopac", "butyl acetate")];
    ImplicitSolvent "butylamine" (Some "NCCCC") (Some ["butylamine"; "butan-1-amine"])
      [("orca", "butylamine"); ("g09", "ButylAmine"); ("nwchem", "nba"); ("mopac", "butylamine"); ("qchem", "butylamine")];
    ImplicitSolvent "n-butylbenzene" (Some "CCCCC1=CC=CC=C1") (Some ["n-butylbenzene"; "butylbenzene"; "phenylbutane"])
      [("orca", "n-butylbenzene"); ("g09", "n-ButylBenzene"); ("nwchem", "nbutbenz"); ("mopac", "n-butylbenzene"); ("qchem", "benzene")];
    ImplicitSolvent "sec-butylbenzene" (Some "CCC(C1=CC=CC=C1)C") (Some ["sec-butylbenzene"; "s-butylbenzene"])
      [("orca", "sec-butylbenzene"); ("g09", "sec-ButylBenzene"); ("nwchem", "sbutbenz"); ("mopac", "s-butylbenzene"); ("qchem", "benzene")];
    ImplicitSolvent "tert-butylbenzene" (Some "CC(C1=CC=CC=C1)(C)C") (Some ["tert-butylbenzene"; "t-butylbenzene"])
      [("orca", "tert-butylbenzene"); ("g09", "tert-ButylBenzene"); ("nwchem", "tbutbenz"); ("mopac", "t-butylbenzene"); ("qchem", "benzene")];
    ImplicitSolvent "o-chlorotoluene" (Some "CC1=CC=CC=C1Cl") (Some ["o-chlorotoluene"; "ortho-chlorotoluene"; "2-chlorotoluene"])
      [("orca", "o-chlorotoluene"); ("g09", "o-ChloroToluene"); ("nwchem", "ocltolue"); ("mopac", "o-chlorotoluene"); ("qchem", "chlorotoluene")];
    ImplicitSolvent "m-cresol" (Some "CC1=CC(O)=CC=C1") (Some ["m-cresol"; "meta-cresol"; "3-methylphenol"])
      [("orca", "m-cresol"); ("g09", "m-Cresol"); ("nwchem", "m-cresol"); ("mopac", "m-cresol"); ("qchem", "m-cresol")];
    ImplicitSolvent "o-cresol" (Some "CC1=CC=CC=C1O") (Some ["o-cresol"; "ortho-cresol"; "2-methylphenol"])
      [("orca", "o-cresol"); ("g09", "o-Cresol"); ("nwchem", "o-cresol"); ("mopac", "o-cresol"); ("qchem", "o-cresol")];
    ImplicitSolvent "cyclohexanone" (Some "O=C1CCCCC1") (Some ["cyclohexanone"])
      [("orca", "cyclohexanone"); ("g09", "CycloHexanone"); ("nwchem", "cychexon"); ("mopac", "cyclohexanone"); ("qchem", "cyclohexanone")];
    ImplicitSolvent "isoquinoline" (Some "C12=C(C=NC=C2)C=CC=C1") (Some ["isoquinoline"])
      [("g09", "IsoQuinoline"); ("mopac", "isoquinoline")];
    ImplicitSolvent "quinoline" (Some "C12=CC=CC=C1N=CC=C2") (Some ["quinoline"])
      [("g09", "Quinoline"); ("mopac", "quinoline")];
    ImplicitSolvent "argon" (Some "[Ar]") (Some ["argon"])
      [("g09", "Argon"); ("mopac", "argon")];
    ImplicitSolvent "krypton" (Some "[Kr]") (Some ["krypton"])
      [("g09", "Krypton"); ("mopac", "krypton")];
    ImplicitSolvent "xenon" (Some "[Xe]") (Some ["xenon"])
      [("g09", "Xenon"); ("mopac", "xenon")]
  ].
Definition _solvents_and_dielectrics : gmap string Q :=
  dict [
    ("acetic acid", 6.25);
    ("acetone", 20.49);
    ("acetonitrile", 35.69);
    ("benzene", 2.27);
    ("1-butanol", 17.33);
    ("2-butanone", 18.25);
    ("carbon tetrachloride", 2.23);
    ("chlorobenzene", 5.70);
    ("chloroform", 4.71);
    ("cyclohexane", 2.02);
    ("1,2-dichlorobenzene", 9.99);
    ("dichloromethane", 8.93);
    ("n,n-dimethylacetamide", 37.78);
    ("n,n-dimethylformamide", 37.22);
    ("1,4-dioxane", 2.21);
    ("ether", 4.24);
    ("ethyl acetate", 5.99);
    ("tce", 3.42);
    ("ethyl alcohol", 24.85);
    ("heptane", 1.91);
    ("hexane", 1.88);
    ("pentane", 1.84);
    ("1-propanol", 20.52);
    ("pyridine", 12.98);
    ("tetrahydrofuran", 7.43);
    ("toluene", 2.37);
    ("water", 78.36);
    ("cs2", 2.61);
    ("dmso", 46.82);
    ("methanol", 32.61);
    ("2-butanol", 15.94);
    ("acetophenone", 17.44);
    ("aniline", 6.89);
    ("anisole", 4.22);
    ("benzaldehyde", 18.22);
    ("benzonitrile", 25.59);
    ("benzyl chloride", 6.72);
    ("isobutyl bromide", 7.78);
    ("bromobenzene", 5.40);
    ("bromoethane", 9.01);
    ("bromoform", 4.25);
    ("bromooctane", 5.02);
    ("bromopentane", 6.27);
    ("butanal", 13.45);
    ("1,1,1-trichloroethane", 7.08);
    ("cyclopentane", 1.96);
    ("1,1,2-trichloroethane", 7.19);
    ("cyclopentanol", 16.99);
    ("1,2,4-trimethylbenzene", 2.37);
    ("cyclopentanone", 13.58);
    ("1,2-dibromoethane", 4.93);
    ("1,2-dichloroethane", 10.13);
    ("cis-decalin", 2.21);
    ("trans-decalin", 2.18);
    ("decalin", 2.20);
    ("1,2-ethanediol", 40.25);
    ("decane", 1.98);
    ("dibromomethane", 7.23);
    ("dibutylether", 3.05);
    ("z-1,2-dichloroethene", 9.20);
    ("e-1,2-dichloroethene", 2.14);
    ("1-bromopropane", 8.05);
    ("2-bromopropane", 9.36);
    ("1-chlorohexane", 5.95);
    ("1-ChloroPentane", 6.50);
    ("1-chloropropane", 8.35);
    ("diethylamine", 3.58);
    ("decanol", 7.53);
    ("diiodomethane", 5.32);
    ("1-fluorooctane", 3.89);
    ("heptanol", 11.32);
    ("cisdmchx", 2.06);
    ("diethyl sulfide", 5.73);
    ("diisopropyl ether", 3.38);
    ("hexanol", 12.51);
    ("hexene", 2.07);
    ("hexyne", 2.62);
    ("iodobutane", 6.17);
    ("1-iodohexadecane", 3.53);
    ("diphenylether", 3.73);
    ("1-iodopentane", 5.70);
    ("1-iodopropane", 6.96);
    ("dipropylamine", 2.91);
    ("dodecane", 2.01);
    ("1-nitropropane", 23.73);
    ("ethanethiol", 6.67);
    ("nonanol", 8.60);
    ("octanol", 9.86);
    ("pentanol", 15.13);
    ("pentene", 1.99);
    ("ethylbenzene", 2.43);
    ("tbp", 8.18);
    ("2,2,2-trifluoroethanol", 26.73);
    ("fluorobenzene", 5.42);
    ("2,2,4-trimethylpentane", 1.94);
    ("formamide", 108.94);
    ("2,4-dimethylpentane", 1.89);
    ("2,4-dimethylpyridine", 9.41);
    ("2,6-dimethylpyridine", 7.17);
    ("hexadecane", 2.04);
    ("dimethyl disulfide", 9.60);
    ("ethyl methanoate", 8.33);
    ("phentole", 4.18);
    ("formic acid", 51.1);
    ("hexanoic acid", 2.6);
    ("2-chlorobutane", 8.39);
    ("2-heptanone", 11.66);
    ("2-hexanone", 14.14);
    ("2-methoxyethanol", 17.20);
    ("isobutanol", 16.78);
    ("tertbutanol", 12.47);
    ("2-methylpentane", 1.89);
    ("2-methylpyridine", 9.95);
    ("2-nitropropane", 25.65);
    ("2-octanone", 9.47);
    ("2-pentanone", 15.20);
    ("iodobenzene", 4.55);
    ("iodoethane", 7.62);
    ("iodomethane", 6.87);
    ("isopropylbenzene", 2.37);
    ("p-cymene", 2.23);
    ("mesitylene", 2.27);
    ("methyl benzoate", 6.74);
    ("methyl butanoate", 5.56);
    ("methyl acetate", 6.86);
    ("methyl formate", 8.84);
    ("methyl propanoate", 6.08);
    ("n-methylaniline", 5.96);
    ("methylcyclohexane", 2.02);
    ("nmfmixtr", 181.56);
    ("nitrobenzene", 34.81);
    ("nitroethane", 28.29);
    ("nitromethane", 36.56);
    ("o-nitrotoluene", 25.67);
    ("n-nonane", 1.96);
    ("n-octane", 1.94);
    ("n-pentadecane", 2.03);
    ("pentanal", 10.00);
    ("pentanoic acid", 2.69);
    ("pentyl acetate", 4.73);
    ("pentylamine", 4.20);
    ("perfluorobenzene", 2.03);
    ("propanal", 18.50);
    ("propanoic acid", 3.44);
    ("cyanoethane", 29.32);
    ("propyl acetate", 5.52);
    ("propylamine", 4.99);
    ("tetrachloroethene", 2.27);
    ("sulfolane", 43.96);
    ("tetralin", 2.77);
    ("thiophene", 2.73);
    ("thiophenol", 4.27);
    ("triethylamine", 2.38);
    ("n-undecane", 1.99);
    ("xylene mix", 3.29);
    ("m-xylene", 2.35);
    ("o-xylene", 2.55);
    ("p-xylene", 2.27);
    ("2-propanol", 19.26);
    ("2-propen-1-ol", 19.01);
    ("e-2-pentene", 2.05);
    ("3-methylpyridine", 11.65);
    ("3-pentanone", 16.78);
    ("4-heptanone", 12.26);
    ("mibk", 12.88);
    ("4-methylpyridine", 11.96);
    ("5-nonanone", 10.6);
    ("benzyl alcohol", 12.46);
    ("butanoic acid", 2.99);
    ("butanenitrile", 24.29);
    ("butyl acetate", 4.99);
    ("butylamine", 4.62);
    ("n-butylbenzene", 2.36);
    ("s-butylbenzene", 2.34);
    ("t-butylbenzene", 2.34);
    ("o-chlorotoluene", 4.63);
    ("m-cresol", 12.44);
    ("o-cresol", 6.76);
    ("cyclohexanone", 15.62);
    ("isoquinoline", 11.00);
    ("quinoline", 9.16);
    ("argon", 1.43);
    ("krypton", 1.52);
    ("xenon", 1.70)
  ]%Q.

(** [Solvent.dielectric]: the value found and the warnings logged. *)
Fixpoint dielectric_loop (table : gmap string Q) (als : list string) : option Q :=
  match als with
  | [] => None
  | alias :: rest =>
      match table !! alias with
      | Some eps => Some eps
      | None => dielectric_loop table rest
      end
  end.

Definition dielectric_in (table : gmap string Q) (self : Solvent)
    : list LogRecord * option Q :=
  match dielectric_loop table (aliases self) with
  | Some eps => ([], Some eps)
  | None =>
      ([Warning ("Could not find a dielectric for: " ++ Solvent_str self
                 ++ ". Returning None")], None)
  end.

Definition dielectric (self : Solvent) : list LogRecord * option Q :=
  dielectric_in _solvents_and_dielectrics self.

(** ** Explicit solvents *)

Record Atom : Type := mkAtom { label : string; x : Q; y : Q; z : Q }.

(** Modelled from the spec: the [Species] class ([autode.species.species])
    is not part of the module; section 6 of the specification gives its
    constructor contract [Structure(name, charge, multiplicity, atoms)],
    a structure holding exactly what it is given. *)
Record Species : Type := mkSpecies {
  species_name : string;
  charge : Z;
  mult : Z;
  atoms : list Atom
}.

(** Modelled from the spec: the [ExplicitSolvent] class
    ([autode.solvent.explicit_solvent]) is not part of the module. Section 3
    of the specification describes the assembly as holding the originating
    record's aliases, the structure of one solvent molecule, the repetition
    count and an optional solute; sections 4.3 and 7 make a count that is
    not positive an invalid argument. *)
Record ExplicitSolvent : Type := mkExplicitSolvent {
  solvent : Species;
  num : Z;
  solute : option Species;
  explicit_aliases : list string
}.

Definition ExplicitSolvent_init (solvent : Species) (num : Z)
    (solute : option Species) (aliases : list string) : Result ExplicitSolvent :=
  if num <=? 0 then Raise (ValueError "count must be a positive integer")
  else Ok (mkExplicitSolvent solvent num solute aliases).

(** What the module sees of its surroundings: its own directory, the file
    system ([os.path.exists]) and the reader of coordinate files
    ([autode.input_output.xyz_file_to_atoms]), which may itself raise. *)
Record Env : Type := mkEnv {
  here : string;
  os_path_exists : string -> bool;
  xyz_file_to_atoms : string -> Result (list Atom)
}.

Definition xyz_path_of (env : Env) (self : Solvent) : string :=
  os_path_join (here env) ["lib"; name self ++ ".xyz"].

(** [ImplicitSolvent.to_explicit]. *)
Definition to_explicit (env : Env) (self : Solvent) (num : Z)
    : Result ExplicitSolvent :=
  let xyz_path := xyz_path_of env self in
  if negb (os_path_exists env xyz_path) then
    Raise (IOError ("Could not convert " ++ name self ++ " to explicit solvent "
                    ++ xyz_path ++ " did not exist"))
  else
    match xyz_file_to_atoms env xyz_path with
    | Raise e => Raise e
    | Ok ats =>
        let solvent_mol := mkSpecies (name self) 0 1 ats in
        ExplicitSolvent_init solvent_mol num None (aliases self)
    end.

(** ** The resolver *)

(** What [get_solvent] returns when it returns a solvent. *)
Inductive AnySolvent : Type :=
  | Implicit (s : Solvent)
  | Explicit (e : ExplicitSolvent).

(** What the loop of [get_solvent] does with a match. Once [kind] is
    validated it is ['implicit'] exactly when it is not ['explicit'], and
    with ['explicit'] the guard before the loop has made sure that [num] is
    an integer: the test [kind == 'implicit'] and the argument of
    [to_explicit(num=num)] are carried into the loop in this form. *)
Inductive Request : Type :=
  | AsImplicit
  | AsExplicit (num : Z).

(** The [for solvent in solvents] loop of [get_solvent] and the [raise]
    after it. *)
Fixpoint get_solvent_loop (env : Env) (registry : list Solvent)
    (solvent_name : string) (req : Request) : Result (option AnySolvent) :=
  match registry with
  | [] =>
      Raise (SolventNotFound ("No matching solvent in the library for "
                              ++ solvent_name))
  | solvent :: rest =>
      if negb (str_in (lower solvent_name) (aliases solvent)) then
        get_solvent_loop env rest solvent_name req
      else if is_implicit solvent then
        match req with
        | AsImplicit => Ok (Some (Implicit solvent))
        | AsExplicit num =>
            match to_explicit env solvent num with
            | Ok e => Ok (Some (Explicit e))
            | Raise err => Raise err
            end
        end
      else get_solvent_loop env rest solvent_name req
  end.

(** [get_solvent] over a given state of the registry. *)
Definition get_solvent_from (env : Env) (registry : list Solvent)
    (solvent_name : option string) (kind : string) (num : option Z)
    : list LogRecord * Result (option AnySolvent) :=
  let kind := lower kind in
  if negb (str_in kind ["explicit"; "implicit"]) then
    ([], Raise (ValueError ("Solvent must be explicit or implicit. Had: " ++ kind)))
  else
    match solvent_name with
    | None => ([Warning "Not requested any solvent - returning None"], Ok None)
    | Some solvent_name =>
        match String.eqb kind "explicit", num with
        | true, None =>
            ([], Raise (ValueError
                   ("Requested an explicit solvent but number of explicit"
                    ++ " solvent molecules was not defined")))
        | true, Some num =>
            ([], get_solvent_loop env registry solvent_name (AsExplicit num))
        | false, _ =>
            ([], get_solvent_loop env registry solvent_name AsImplicit)
        end
    end.

(** [get_solvent]: the registry is the module-level list [solvents]. *)
Definition get_solvent (env : Env) (solvent_name : option string)
    (kind : string) (num : option Z)
    : list LogRecord * Result (option AnySolvent) :=
  get_solvent_from env solvents solvent_name kind num.

(** ** Positions in the registry *)

Abbreviation Ref := nat (only parsing).

(** The position at which the loop of [get_solvent] stops, if it does. *)
Fixpoint match_index (registry : list Solvent) (lname : string) : option Ref :=
  match registry with
  | [] => None
  | solvent :: rest =>
      if str_in lname (aliases solvent) && is_implicit solvent then Some O
      else S <$> match_index rest lname
  end.

(** The position of the record [get_solvent(solvent_name, ...)] stops at. *)
Definition get_solvent_ref (registry : list Solvent) (solvent_name : string)
    : option Ref :=
  match_index registry (lower solvent_name).

(** ** Objects and their identity

    [solvents] is a list of references to objects, and the loop variable
    [solvent] of [get_solvent] is bound to one of these references. An
    object is identified by its address in a heap; [fresh] is the first
    address that no object created so far has. *)

Abbreviation Addr := nat (only parsing).

Record Heap : Type := mkHeap {
  obj_at : Addr -> Solvent;
  fresh : Addr
}.

(** [deepcopy(obj)] for a solvent: a new object with the value of the
    old one (its strings are immutable, its alias list and attribute
    dictionary are copied with it). *)
Definition deepcopy (h : Heap) (a : Addr) : Heap * Addr :=
  (mkHeap (fun b => if Nat.eqb b (fresh h) then obj_at h a else obj_at h b)
          (S (fresh h)),
   fresh h).

(** [Solvent.copy]. *)
Definition Solvent_copy (h : Heap) (self : Addr) : Heap * Addr :=
  deepcopy h self.

(** What a caller can do to a solvent it holds: [obj.name = v],
    [obj.smiles = v] and [obj.aliases.append(v)], as functions on the
    value of the object. *)
Definition set_name (v : string) (s : Solvent) : Solvent :=
  mkSolvent (cls s) v (smiles s) (aliases s) (attrs s).
Definition set_smiles (v : option string) (s : Solvent) : Solvent :=
  mkSolvent (cls s) (name s) v (aliases s) (attrs s).
Definition aliases_append (v : string) (s : Solvent) : Solvent :=
  mkSolvent (cls s) (name s) (smiles s) (aliases s ++ [v])%list (attrs s).

(** The heap after the mutation [f] of the object at address [a]. *)
Definition mutate (f : Solvent -> Solvent) (a : Addr) (h : Heap) : Heap :=
  mkHeap (fun b => if Nat.eqb b a then f (obj_at h a) else obj_at h b)
         (fresh h).

(** What [get_solvent] returns when it returns a solvent: the reference
    it found in the registry, or the explicit solvent it built. *)
Inductive Returned : Type :=
  | ReturnedSolvent (solvent : Addr)
  | ReturnedExplicit (e : ExplicitSolvent).

(** The loop of [get_solvent] on references: [registry] is the list of
    addresses that [solvents] holds, the attributes of [solvent] are read
    from the heap, and [return solvent] returns the address itself. *)
Fixpoint get_solvent_loop_obj (env : Env) (h : Heap) (registry : list Addr)
    (solvent_name : string) (req : Request) : Result (option Returned) :=
  match registry with
  | [] =>
      Raise (SolventNotFound ("No matching solvent in the library for "
                              ++ solvent_name))
  | solvent :: rest =>
      if negb (str_in (lower solvent_name) (aliases (obj_at h solvent))) then
        get_solvent_loop_obj env h rest solvent_name req
      else if is_implicit (obj_at h solvent) then
        match req with
        | AsImplicit => Ok (Some (ReturnedSolvent solvent))
        | AsExplicit num =>
            match to_explicit env (obj_at h solvent) num with
            | Ok e => Ok (Some (ReturnedExplicit e))
            | Raise err => Raise err
            end
        end
      else get_solvent_loop_obj env h rest solvent_name req
  end.

(** [get_solvent] on references. It creates no object and changes none:
    the heap is read only. *)
Definition get_solvent_obj (env : Env) (h : Heap) (registry : list Addr)
    (solvent_name : option string) (kind : string) (num : option Z)
    : list LogRecord * Result (option Returned) :=
  let kind := lower kind in
  if negb (str_in kind ["explicit"; "implicit"]) then
    ([], Raise (ValueError ("Solvent must be explicit or implicit. Had: " ++ kind)))
  else
    match solvent_name with
    | None => ([Warning "Not requested any solvent - returning None"], Ok None)
    | Some solvent_name =>
        match String.eqb kind "explicit", num with
        | true, None =>
            ([], Raise (ValueError
                   ("Requested an explicit solvent but number of explicit"
                    ++ " solvent molecules was not defined")))
        | true, Some num =>
            ([], get_solvent_loop_obj env h registry solvent_name (AsExplicit num))
        | false, _ =>
            ([], get_solvent_loop_obj env h registry solvent_name AsImplicit)
        end
    end.

(** The value of what was returned, read from the heap. *)
Definition value_of (h : Heap) (r : Returned) : AnySolvent :=
  match r with
  | ReturnedSolvent a => Implicit (obj_at h a)
  | ReturnedExplicit e => Explicit e
  end.

Definition result_value (h : Heap) (r : Result (option Returned))
    : Result (option AnySolvent) :=
  match r with
  | Ok (Some v) => Ok (Some (value_of h v))
  | Ok None => Ok None
  | Raise err => Raise err
  end.

(** The module once it is imported: the objects of [solvents] are at the
    addresses [0], [1], ... in the order of the list, [solvents] holds
    these addresses, and the addresses from [length solvents] on are
    free (what [obj_at] gives there is not an object of the program). *)
Definition module_heap : Heap :=
  mkHeap (fun a => default (mkSolvent ImplicitSolventClass "" None [] ∅)
                           (solvents !! a))
         (length solvents).

Definition module_registry : list Addr := seq 0 (length solvents).

(** ** Auxiliary definitions for the statements *)

(** What the loop does with the record it stops at. *)
Definition deliver (env : Env) (s : Solvent) (req : Request)
    : Result (option AnySolvent) :=
  match req with
  | AsImplicit => Ok (Some (Implicit s))
  | AsExplicit num =>
      match to_explicit env s num with
      | Ok e => Ok (Some (Explicit e))
      | Raise err => Raise err
      end
  end.

(** [r1 == r2] for two results of [get_solvent] that are implicit solvents. *)
Definition equal_solvents (r1 r2 : Result (option AnySolvent)) : bool :=
  match r1, r2 with
  | Ok (Some (Implicit s1)), Ok (Some (Implicit s2)) => Solvent_eq s1 (Some s2)
  | _, _ => false
  end.

(** The implicit solvent a result of [get_solvent] holds, if it holds one. *)
Definition implicit_result (r : Result (option AnySolvent)) : option Solvent :=
  match r with
  | Ok (Some (Implicit s)) => Some s
  | _ => None
  end.

(** The message of the [IOError] of [to_explicit]. *)
Definition missing_xyz_message (env : Env) (s : Solvent) : string :=
  "Could not convert " ++ name s ++ " to explicit solvent "
  ++ xyz_path_of env s ++ " did not exist".

(** Every alias of every record of [registry] leads the loop to that
    record, as a boolean that can be evaluated. *)
Definition aliases_reach_their_record (registry : list Solvent) : bool :=
  forallb
    (fun ir : nat * Solvent =>
       forallb
         (fun a => bool_decide (match_index registry (lower a) = Some ir.1))
         (aliases ir.2))
    (imap pair registry).

(** Two installations used as examples: one whose [lib] directory holds
    no coordinate file, and one that holds [water.xyz] only. *)
Definition empty_lib : Env :=
  mkEnv "/autode/solvent" (fun _ => false)
        (fun path => Raise (IOError ("No such file: " ++ path))).

Definition water_atoms : list Atom :=
  [ mkAtom "O" 0 0 0; mkAtom "H" 0.96 0 0; mkAtom "H" (-0.24) 0.93 0 ]%Q.

Definition water_lib : Env :=
  mkEnv "/autode/solvent"
        (fun path => String.eqb path "/autode/solvent/lib/water.xyz")
        (fun path =>
           if String.eqb path "/autode/solvent/lib/water.xyz" then Ok water_atoms
           else Raise (IOError ("No such file: " ++ path))).

(** No alias is shared by two implicit records of [registry]. *)
Definition alias_owner_unique (registry : list Solvent) : Prop :=
  forall (i j : nat) (s t : Solvent) (a : string),
    registry !! i = Some s -> registry !! j = Some t ->
    is_implicit s = true -> is_implicit t = true ->
    a ∈ aliases s -> a ∈ aliases t -> i = j.

(** A registry of two records that both declare the alias ['ether']. *)
Definition shared_alias_registry : list Solvent :=
  [ ImplicitSolvent "diethyl ether" (Some "CCOCC") (Some ["ether"]) [];
    ImplicitSolvent "petroleum ether" None (Some ["ether"; "ligroin"]) [] ].

(** * Properties *)

(** ** Strings and membership *)

Lemma lower_ascii_idem (c : ascii) : lower_ascii (lower_ascii c) = lower_ascii c.
Proof. destruct c as [[] [] [] [] [] [] [] []]; reflexivity. Qed.

Lemma lower_idem (s : string) : lower (lower s) = lower s.
Proof.
  induction s as [|c s IH]; simpl; [reflexivity|].
  rewrite lower_ascii_idem, IH. reflexivity.
Qed.

Lemma isascii_char_lower (c : ascii) :
  isascii_char c = true -> isascii_char (lower_ascii c) = true.
Proof. destruct c as [[] [] [] [] [] [] [] []]; intros H; try exact H; reflexivity. Qed.

Lemma is_ascii_lower (s : string) : is_ascii s = true -> is_ascii (lower s) = true.
Proof.
  induction s as [|c s IH]; simpl; [reflexivity|].
  intros H. apply andb_true_iff in H as [Hc Hs].
  rewrite (isascii_char_lower c Hc), (IH Hs). reflexivity.
Qed.

Lemma str_in_true (v : string) (l : list string) : str_in v l = true <-> v ∈ l.
Proof.
  unfold str_in. rewrite existsb_exists. split.
  - intros (w & Hin & Heq). apply String.eqb_eq in Heq. subst w.
    apply list_elem_of_In. exact Hin.
  - intros Hin. exists v. split; [apply list_elem_of_In; exact Hin|].
    apply String.eqb_refl.
Qed.

Lemma str_in_false (v : string) (l : list string) : str_in v l = false <-> v ∉ l.
Proof.
  rewrite <- str_in_true. destruct (str_in v l); split; congruence.
Qed.

Lemma option_str_eqb_refl (o : option string) : option_str_eqb o o = true.
Proof. destruct o as [v|]; simpl; [apply String.eqb_refl | reflexivity]. Qed.

Lemma Solvent_eq_refl (s : Solvent) : Solvent_eq s (Some s) = true.
Proof.
  unfold Solvent_eq. rewrite String.eqb_refl, option_str_eqb_refl. reflexivity.
Qed.

(** ** The loop of [get_solvent] *)

Lemma match_index_Some (registry : list Solvent) (lname : string) (i : Ref) :
  match_index registry lname = Some i ->
  exists s, registry !! i = Some s /\ lname ∈ aliases s /\ is_implicit s = true.
Proof.
  revert i. induction registry as [|s0 rest IH]; intros i; simpl; [discriminate|].
  destruct (str_in lname (aliases s0) && is_implicit s0) eqn:Hhit.
  - intros [= <-]. exists s0. apply andb_true_iff in Hhit as [Hin Himp].
    apply str_in_true in Hin. auto.
  - destruct (match_index rest lname) as [j|] eqn:Hrest; simpl; [|discriminate].
    intros [= <-]. destruct (IH j eq_refl) as (s & Hs & Hin & Himp).
    exists s. auto.
Qed.

Lemma match_index_None (registry : list Solvent) (lname : string) :
  match_index registry lname = None <->
  Forall (fun s => lname ∈ aliases s -> is_implicit s = false) registry.
Proof.
  induction registry as [|s0 rest IH]; simpl.
  - split; [constructor | reflexivity].
  - destruct (str_in lname (aliases s0) && is_implicit s0) eqn:Hhit.
    + split; [discriminate|]. intros HF. apply Forall_cons in HF as [H0 _].
      apply andb_true_iff in Hhit as [Hin Himp]. apply str_in_true in Hin.
      rewrite (H0 Hin) in Himp. discriminate.
    + destruct (match_index rest lname) as [j|] eqn:Hrest; simpl.
      * split; [discriminate|]. intros HF. apply Forall_cons in HF as [_ HF].
        apply IH in HF. discriminate.
      * split; [|reflexivity]. intros _. apply Forall_cons. split.
        -- intros Hin. apply str_in_true in Hin. rewrite Hin in Hhit.
           simpl in Hhit. exact Hhit.
        -- apply IH. reflexivity.
Qed.

Lemma get_solvent_loop_match_index (env : Env) (registry : list Solvent)
    (solvent_name : string) (req : Request) :
  get_solvent_loop env registry solvent_name req =
  match match_index registry (lower solvent_name) with
  | Some i =>
      match registry !! i with
      | Some s => deliver env s req
      | None => Raise (SolventNotFound ("No matching solvent in the library for "
                                        ++ solvent_name))
      end
  | None => Raise (SolventNotFound ("No matching solvent in the library for "
                                    ++ solvent_name))
  end.
Proof.
  induction registry as [|s0 rest IH]; simpl; [reflexivity|].
  destruct (str_in (lower solvent_name) (aliases s0)); simpl.
  - destruct (is_implicit s0); simpl.
    + destruct req; reflexivity.
    + rewrite IH. destruct (match_index rest (lower solvent_name)); reflexivity.
  - rewrite IH. destruct (match_index rest (lower solvent_name)); reflexivity.
Qed.

Lemma get_solvent_loop_found (env : Env) (registry : list Solvent)
    (solvent_name : string) (req : Request) (r : Ref) (s : Solvent) :
  match_index registry (lower solvent_name) = Some r ->
  registry !! r = Some s ->
  get_solvent_loop env registry solvent_name req = deliver env s req.
Proof.
  intros Hr Hs. rewrite get_solvent_loop_match_index, Hr, Hs. reflexivity.
Qed.

Lemma str_in_kinds (k : string) :
  str_in k ["explicit"; "implicit"] = true <-> k = "explicit" \/ k = "implicit".
Proof.
  rewrite str_in_true. rewrite !elem_of_cons, elem_of_nil. tauto.
Qed.

(** ** The constructor *)

Lemma Solvent_init_aliases (c : SolventClass) (n : string)
    (sm : option string) (als : option (list string)) (kw : gmap string string) :
  aliases (Solvent_init c n sm als kw) = lower n :: map lower (default [] als).
Proof. destruct als; reflexivity. Qed.

(** C10: a solvent constructed with the keyword [g09] gets the attribute
    [g16] with the same string, whatever the other keywords are (a keyword
    [g16] given as well is overwritten), and keeps its [g09]: the Gaussian
    16 spelling equals the Gaussian 09 spelling. *)
Theorem g16_follows_g09 (c : SolventClass) (n : string) (sm : option string)
    (als : option (list string)) (kwargs : gmap string string) (v : string) :
  kwargs !! "g09" = Some v ->
  attrs (Solvent_init c n sm als kwargs) !! "g16" = Some v
  /\ attrs (Solvent_init c n sm als kwargs) !! "g09" = Some v
  /\ attrs (Solvent_init c n sm als kwargs) !! "g16"
     = attrs (Solvent_init c n sm als kwargs) !! "g09".
Proof.
  intros Hg. unfold Solvent_init. rewrite Hg. cbn [attrs].
  assert (H16 : (<["g16" := v]> (kwargs ∪ (∅ : gmap string string)) : gmap string string)
                !! "g16" = Some v) by apply lookup_insert_eq.
  assert (H09 : (<["g16" := v]> (kwargs ∪ (∅ : gmap string string)) : gmap string string)
                !! "g09" = Some v).
  { rewrite lookup_insert_ne by discriminate.
    rewrite (right_id_L ∅ (∪) kwargs). exact Hg. }
  rewrite H16, H09. auto.
Qed.

Lemma g16_follows_g09_witness :
  dict [("orca", "water"); ("g09", "Water"); ("g16", "H2O")] !! "g09" = Some "Water"
  /\ attrs (Solvent_init ImplicitSolventClass "water" (Some "O")
              (Some ["water"; "h2o"])
              (dict [("orca", "water"); ("g09", "Water"); ("g16", "H2O")]))
       !! "g16" = Some "Water".
Proof.
  split; [reflexivity|].
  apply (g16_follows_g09 ImplicitSolventClass "water" (Some "O")
           (Some ["water"; "h2o"])
           (dict [("orca", "water"); ("g09", "Water"); ("g16", "H2O")]) "Water").
  reflexivity.
Defined.

(** C3, as the claim states it, fails on the first record of the registry:
    it is declared with [name='water'] and [aliases=['water', 'h2o']], its
    alias list is [['water'; 'water'; 'h2o']] and holds ['water'] twice. *)
Lemma water_aliases_repeat :
  aliases <$> head solvents = Some ["water"; "water"; "h2o"]
  /\ ~ NoDup ["water"; "water"; "h2o"].
Proof.
  split; [reflexivity|].
  intros Hnd. apply NoDup_cons in Hnd as [Hnotin _].
  apply Hnotin. apply elem_of_cons. left. reflexivity.
Qed.

(** C3 (amended): the alias list of every constructed solvent is not
    empty and has one entry for the name and one for each declared alias.
    For a name and declared aliases in ASCII it starts with
    [name.lower()], continues with the declared aliases lower-cased and in
    their order, and holds lower-case strings only. Nothing removes
    repeated entries: the list is free of duplicates exactly when the
    lower-cased name and declared aliases are. *)
Theorem Solvent_init_aliases_shape (c : SolventClass) (n : string)
    (sm : option string) (als : option (list string)) (kwargs : gmap string string) :
  let s := Solvent_init c n sm als kwargs in
  aliases s <> []
  /\ length (aliases s) = S (length (default [] als))
  /\ (is_ascii n = true ->
      Forall (fun a => is_ascii a = true) (default [] als) ->
      head (aliases s) = Some (lower n)
      /\ lower n ∈ aliases s
      /\ aliases s = lower n :: map lower (default [] als)
      /\ Forall (fun a => lower a = a /\ is_ascii a = true) (aliases s)
      /\ (NoDup (aliases s) <-> NoDup (lower n :: map lower (default [] als)))).
Proof.
  intros s. unfold s. rewrite Solvent_init_aliases.
  split; [discriminate|]. split; [cbn; rewrite length_map; reflexivity|].
  intros Hn Hals.
  split; [reflexivity|].
  split; [apply elem_of_cons; left; reflexivity|].
  split; [reflexivity|]. split; [|reflexivity].
  apply Forall_cons. split; [split; [apply lower_idem | apply is_ascii_lower; exact Hn]|].
  apply Forall_forall. intros a Ha. apply list_elem_of_fmap in Ha as (b & -> & Hb).
  split; [apply lower_idem|]. apply is_ascii_lower.
  rewrite Forall_forall in Hals. apply Hals. exact Hb.
Qed.

Lemma Solvent_init_aliases_shape_witness :
  aliases (Solvent_init ImplicitSolventClass "Diethyl Ether" (Some "CCOCC")
             (Some ["ether"; "Ethoxyethane"; "ether"]) ∅)
  = ["diethyl ether"; "ether"; "ethoxyethane"; "ether"].
Proof.
  apply (proj2 (proj2 (Solvent_init_aliases_shape ImplicitSolventClass
                         "Diethyl Ether" (Some "CCOCC")
                         (Some ["ether"; "Ethoxyethane"; "ether"]) ∅))).
  - reflexivity.
  - repeat constructor.
Defined.

(** ** The dielectric constant *)

Lemma dielectric_loop_first (table : gmap string Q) (als : list string)
    (i : nat) (a : string) (eps : Q) :
  als !! i = Some a ->
  table !! a = Some eps ->
  (forall j b, (j < i)%nat -> als !! j = Some b -> table !! b = None) ->
  dielectric_loop table als = Some eps.
Proof.
  revert i. induction als as [|a0 rest IH]; intros i Hi Ha Hbefore.
  - discriminate.
  - destruct i as [|i]; simpl in *.
    + injection Hi as ->. rewrite Ha. reflexivity.
    + rewrite (Hbefore O a0) by (reflexivity || lia).
      apply (IH i); [exact Hi | exact Ha |].
      intros j b Hj Hb. apply (Hbefore (S j) b); [lia | exact Hb].
Qed.

Lemma dielectric_loop_none (table : gmap string Q) (als : list string) :
  (forall a, a ∈ als -> table !! a = None) ->
  dielectric_loop table als = None.
Proof.
  induction als as [|a0 rest IH]; intros Hall; simpl; [reflexivity|].
  rewrite (Hall a0) by (apply elem_of_cons; left; reflexivity).
  apply IH. intros a Ha. apply Hall. apply elem_of_cons. right. exact Ha.
Qed.

(** C5: the dielectric lookup goes through the aliases of the record in
    their stored order and returns the table value of the first alias that
    is a key of the table, logging nothing; when no alias is a key it
    returns [None] and logs one warning. It is a total function into
    [option]: there is no raising branch. *)
Theorem dielectric_first_alias_in_table (table : gmap string Q) (s : Solvent) :
  (forall i a eps,
      aliases s !! i = Some a ->
      table !! a = Some eps ->
      (forall j b, (j < i)%nat -> aliases s !! j = Some b -> table !! b = None) ->
      dielectric_in table s = ([], Some eps))
  /\ ((forall a, a ∈ aliases s -> table !! a = None) ->
      dielectric_in table s =
        ([Warning ("Could not find a dielectric for: " ++ name s
                   ++ ". Returning None")], None)).
Proof.
  split.
  - intros i a eps Hi Ha Hbefore. unfold dielectric_in.
    rewrite (dielectric_loop_first table (aliases s) i a eps Hi Ha Hbefore).
    reflexivity.
  - intros Hnone. unfold dielectric_in.
    rewrite (dielectric_loop_none table (aliases s) Hnone). reflexivity.
Qed.

Lemma dielectric_first_alias_in_table_witness :
  dielectric_in _solvents_and_dielectrics
    (ImplicitSolvent "trichloromethane" (Some "ClC(Cl)Cl")
       (Some ["chloroform"; "trichloromethane"; "chcl3"; "methyl trichloride"]) [])
  = ([], Some 4.71%Q)
  /\ dielectric_in _solvents_and_dielectrics
       (ImplicitSolvent "1-chloropentane" (Some "CCCCCCl")
          (Some ["1-chloropentane"; "chloropentane"]) [])
     = ([Warning "Could not find a dielectric for: 1-chloropentane. Returning None"],
        None).
Proof.
  split.
  - apply (proj1 (dielectric_first_alias_in_table _solvents_and_dielectrics
             (ImplicitSolvent "trichloromethane" (Some "ClC(Cl)Cl")
                (Some ["chloroform"; "trichloromethane"; "chcl3";
                       "methyl trichloride"]) []))
             1%nat "chloroform" 4.71%Q).
    + reflexivity.
    + vm_compute. reflexivity.
    + intros j b Hj Hb. destruct j as [|j]; [|lia].
      injection Hb as <-. vm_compute. reflexivity.
  - apply (proj2 (dielectric_first_alias_in_table _solvents_and_dielectrics
             (ImplicitSolvent "1-chloropentane" (Some "CCCCCCl")
                (Some ["1-chloropentane"; "chloropentane"]) []))).
    intros a Ha. cbn in Ha.
    repeat (apply elem_of_cons in Ha as [-> | Ha]; [vm_compute; reflexivity|]).
    apply elem_of_nil in Ha. destruct Ha.
Defined.

(** ** Validation of [kind] *)

Lemma get_solvent_from_lower_kind (env : Env) (registry : list Solvent)
    (solvent_name : option string) (kind : string) (num : option Z) :
  get_solvent_from env registry solvent_name kind num
  = get_solvent_from env registry solvent_name (lower kind) num.
Proof. unfold get_solvent_from. rewrite lower_idem. reflexivity. Qed.

Lemma get_solvent_from_implicit (env : Env) (registry : list Solvent)
    (solvent_name kind : string) (num : option Z) :
  lower kind = "implicit" ->
  get_solvent_from env registry (Some solvent_name) kind num
  = ([], get_solvent_loop env registry solvent_name AsImplicit).
Proof. intros Hk. unfold get_solvent_from. rewrite Hk. reflexivity. Qed.

Lemma get_solvent_from_explicit (env : Env) (registry : list Solvent)
    (solvent_name kind : string) (n : Z) :
  lower kind = "explicit" ->
  get_solvent_from env registry (Some solvent_name) kind (Some n)
  = ([], get_solvent_loop env registry solvent_name (AsExplicit n)).
Proof. intros Hk. unfold get_solvent_from. rewrite Hk. reflexivity. Qed.

Lemma get_solvent_from_explicit_no_num (env : Env) (registry : list Solvent)
    (solvent_name kind : string) :
  lower kind = "explicit" ->
  get_solvent_from env registry (Some solvent_name) kind None
  = ([], Raise (ValueError
           "Requested an explicit solvent but number of explicit solvent molecules was not defined")).
Proof. intros Hk. unfold get_solvent_from. rewrite Hk. reflexivity. Qed.

Lemma get_solvent_from_no_name (env : Env) (registry : list Solvent)
    (kind : string) (num : option Z) :
  lower kind = "implicit" \/ lower kind = "explicit" ->
  get_solvent_from env registry None kind num
  = ([Warning "Not requested any solvent - returning None"], Ok None).
Proof. intros [Hk|Hk]; unfold get_solvent_from; rewrite Hk; reflexivity. Qed.

(** C7: [kind] is lower-cased before anything else is looked at, so two
    spellings of [kind] that differ in case only give the same result (in
    particular ["IMPLICIT"] and ["implicit"]), and a [kind] that is neither
    ['implicit'] nor ['explicit'] up to case raises [ValueError], whatever
    the name and the count are; nothing is logged, and for a [kind] in
    ASCII the message ends with its lower-case form. *)
Theorem kind_is_case_normalized (env : Env) (solvent_name : option string)
    (num : option Z) :
  get_solvent env solvent_name "IMPLICIT" num
  = get_solvent env solvent_name "implicit" num
  /\ (forall kind kind',
        lower kind = lower kind' ->
        get_solvent env solvent_name kind num
        = get_solvent env solvent_name kind' num)
  /\ (forall kind,
        lower kind <> "implicit" -> lower kind <> "explicit" ->
        is_ValueError (get_solvent env solvent_name kind num).2 = true
        /\ (get_solvent env solvent_name kind num).1 = []
        /\ (is_ascii kind = true ->
            get_solvent env solvent_name kind num
            = ([], Raise (ValueError ("Solvent must be explicit or implicit. Had: "
                                      ++ lower kind))))).
Proof.
  assert (Hcase : forall kind kind',
             lower kind = lower kind' ->
             get_solvent env solvent_name kind num
             = get_solvent env solvent_name kind' num).
  { intros kind kind' Hk. unfold get_solvent.
    rewrite (get_solvent_from_lower_kind env solvents solvent_name kind).
    rewrite (get_solvent_from_lower_kind env solvents solvent_name kind').
    rewrite Hk. reflexivity. }
  split; [apply Hcase; reflexivity|]. split; [exact Hcase|].
  intros kind Hi He. unfold get_solvent, get_solvent_from.
  destruct (str_in (lower kind) ["explicit"; "implicit"]) eqn:Hin.
  - apply str_in_kinds in Hin. tauto.
  - cbn. auto.
Qed.

Lemma kind_is_case_normalized_witness :
  get_solvent empty_lib (Some "water") "ExPlIcIt" (Some 3)
  = get_solvent empty_lib (Some "water") "explicit" (Some 3)
  /\ get_solvent empty_lib (Some "water") "Gas" (Some 3)
     = ([], Raise (ValueError "Solvent must be explicit or implicit. Had: gas")).
Proof.
  split.
  - apply (proj1 (proj2 (kind_is_case_normalized empty_lib (Some "water") (Some 3)))).
    reflexivity.
  - apply (proj2 (proj2 (kind_is_case_normalized empty_lib (Some "water") (Some 3)))
             "Gas"); [vm_compute; discriminate | vm_compute; discriminate | reflexivity].
Defined.

(** ** Names that are absent or unknown *)

Lemma no_alias_Forall (registry : list Solvent) (lname : string) :
  forallb (fun R => negb (str_in lname (aliases R))) registry = true ->
  Forall (fun R => lname ∉ aliases R) registry.
Proof.
  induction registry as [|R rest IH]; simpl; intros Hall; [constructor|].
  apply andb_true_iff in Hall as [HR Hrest]. apply Forall_cons. split.
  - apply str_in_false. apply negb_true_iff. exact HR.
  - apply IH. exact Hrest.
Qed.

Lemma unknown_name_no_match (registry : list Solvent) (lname : string) :
  Forall (fun R => lname ∉ aliases R) registry ->
  match_index registry lname = None.
Proof.
  intros Hno. apply match_index_None. eapply Forall_impl; [exact Hno|].
  intros R HR Hin. destruct (HR Hin).
Qed.

(** C6, as the claim states it, fails for [kind='explicit'] without a
    count: a name that no record knows then raises the [ValueError] of the
    missing count, not [SolventNotFound]. *)
Lemma unknown_name_without_count :
  Forall (fun R => lower "not-a-solvent" ∉ aliases R) solvents
  /\ get_solvent empty_lib (Some "not-a-solvent") "explicit" None
     = ([], Raise (ValueError
              "Requested an explicit solvent but number of explicit solvent molecules was not defined"))
  /\ is_SolventNotFound
       (get_solvent empty_lib (Some "not-a-solvent") "explicit" None).2 = false.
Proof.
  split; [apply no_alias_Forall; vm_compute; reflexivity|].
  split; reflexivity.
Qed.

(** C6 (amended): for every valid [kind] an absent name gives the result
    [None] (one warning is logged, nothing is raised). A present name in
    ASCII whose lower-case form is an alias of no record raises
    [SolventNotFound] with the requested name in its message, except when
    [kind] is ['explicit'] and the count is absent: that request raises the
    [ValueError] of the missing count before the registry is looked at. *)
Theorem absent_or_unknown_name (env : Env) (kind : string) (num : option Z) :
  lower kind = "implicit" \/ lower kind = "explicit" ->
  get_solvent env None kind num
  = ([Warning "Not requested any solvent - returning None"], Ok None)
  /\ (forall solvent_name,
        is_ascii solvent_name = true ->
        Forall (fun R => lower solvent_name ∉ aliases R) solvents ->
        (lower kind = "implicit" \/ is_Some num ->
         get_solvent env (Some solvent_name) kind num
         = ([], Raise (SolventNotFound
                  ("No matching solvent in the library for " ++ solvent_name))))
        /\ (lower kind = "explicit" -> num = None ->
            get_solvent env (Some solvent_name) kind num
            = ([], Raise (ValueError
                     "Requested an explicit solvent but number of explicit solvent molecules was not defined")))).
Proof.
  intros Hkind. split.
  - apply get_solvent_from_no_name. exact Hkind.
  - intros solvent_name _ Hno. apply unknown_name_no_match in Hno. split.
    + intros Hcase. unfold get_solvent.
      assert (Hloop : forall req,
                 get_solvent_loop env solvents solvent_name req
                 = Raise (SolventNotFound
                     ("No matching solvent in the library for " ++ solvent_name))).
      { intros req. rewrite get_solvent_loop_match_index, Hno. reflexivity. }
      destruct Hkind as [Hi|He].
      * rewrite (get_solvent_from_implicit _ _ _ _ _ Hi), Hloop. reflexivity.
      * destruct Hcase as [Hi|[n ->]]; [rewrite He in Hi; discriminate|].
        rewrite (get_solvent_from_explicit _ _ _ _ _ He), Hloop. reflexivity.
    + intros He ->. apply get_solvent_from_explicit_no_num. exact He.
Qed.

Lemma absent_or_unknown_name_witness :
  get_solvent empty_lib None "Implicit" None
  = ([Warning "Not requested any solvent - returning None"], Ok None)
  /\ get_solvent empty_lib (Some "not-a-solvent") "Implicit" None
     = ([], Raise (SolventNotFound
              "No matching solvent in the library for not-a-solvent")).
Proof.
  assert (Hkind : lower "Implicit" = "implicit" \/ lower "Implicit" = "explicit")
    by (left; reflexivity).
  split.
  - apply (proj1 (absent_or_unknown_name empty_lib "Implicit" None Hkind)).
  - apply (proj1 (proj2 (absent_or_unknown_name empty_lib "Implicit" None Hkind)
                    "not-a-solvent" eq_refl
                    ltac:(apply no_alias_Forall; vm_compute; reflexivity))).
    left. reflexivity.
Defined.

(** ** Conversion to an explicit solvent *)

Lemma to_explicit_no_file (env : Env) (s : Solvent) (n : Z) :
  os_path_exists env (xyz_path_of env s) = false ->
  to_explicit env s n = Raise (IOError (missing_xyz_message env s)).
Proof. intros Hno. unfold to_explicit. rewrite Hno. reflexivity. Qed.

Lemma to_explicit_with_file (env : Env) (s : Solvent) (n : Z) :
  os_path_exists env (xyz_path_of env s) = true ->
  to_explicit env s n =
  match xyz_file_to_atoms env (xyz_path_of env s) with
  | Raise e => Raise e
  | Ok ats => ExplicitSolvent_init (mkSpecies (name s) 0 1 ats) n None (aliases s)
  end.
Proof. intros Hyes. unfold to_explicit. rewrite Hyes. reflexivity. Qed.

(** C9: when the coordinate file of a record, [lib/<name>.xyz] under the
    directory of the module, does not exist, [to_explicit] raises [IOError]
    for every count, and [get_solvent] with [kind='explicit'] passes that
    error on to its caller for every name that resolves to the record. *)
Theorem missing_structure_file (env : Env) (s : Solvent) (n : Z) :
  os_path_exists env (xyz_path_of env s) = false ->
  to_explicit env s n = Raise (IOError (missing_xyz_message env s))
  /\ (forall registry solvent_name kind r,
        lower kind = "explicit" ->
        get_solvent_ref registry solvent_name = Some r ->
        registry !! r = Some s ->
        get_solvent_from env registry (Some solvent_name) kind (Some n)
        = ([], Raise (IOError (missing_xyz_message env s)))).
Proof.
  intros Hno. split; [apply to_explicit_no_file; exact Hno|].
  intros registry solvent_name kind r Hk Hr Hs.
  rewrite (get_solvent_from_explicit _ _ _ _ _ Hk).
  rewrite (get_solvent_loop_found env registry solvent_name _ r s Hr Hs).
  simpl. rewrite (to_explicit_no_file env s n Hno). reflexivity.
Qed.

Lemma missing_structure_file_witness :
  os_path_exists water_lib
    (xyz_path_of water_lib
       (ImplicitSolvent "argon" (Some "[Ar]") (Some ["argon"])
          [("g09", "Argon"); ("mopac", "argon")])) = false
  /\ get_solvent water_lib (Some "Argon") "explicit" (Some 2)
     = ([], Raise (IOError
              "Could not convert argon to explicit solvent /autode/solvent/lib/argon.xyz did not exist")).
Proof.
  split; [reflexivity|].
  apply (proj2 (missing_structure_file water_lib
                  (ImplicitSolvent "argon" (Some "[Ar]") (Some ["argon"])
                     [("g09", "Argon"); ("mopac", "argon")]) 2 eq_refl)
           solvents "Argon" "explicit" 181%nat).
  - reflexivity.
  - vm_compute. reflexivity.
  - vm_compute. reflexivity.
Defined.

(** C8: when the coordinate file of a record exists and is read, every
    successful conversion returns an assembly that holds the requested
    count, one molecule built under the name of the record with charge 0
    and multiplicity 1 from the atoms of the file, the alias list of the
    record and no solute; and the conversion does succeed for every
    positive count. *)
Theorem to_explicit_assembly (env : Env) (s : Solvent) (n : Z) (ats : list Atom) :
  os_path_exists env (xyz_path_of env s) = true ->
  xyz_file_to_atoms env (xyz_path_of env s) = Ok ats ->
  (forall e, to_explicit env s n = Ok e ->
     num e = n
     /\ solvent e = mkSpecies (name s) 0 1 ats
     /\ charge (solvent e) = 0 /\ mult (solvent e) = 1
     /\ species_name (solvent e) = name s
     /\ explicit_aliases e = aliases s
     /\ solute e = None)
  /\ (0 < n ->
      to_explicit env s n
      = Ok (mkExplicitSolvent (mkSpecies (name s) 0 1 ats) n None (aliases s))).
Proof.
  intros Hfile Hread.
  rewrite (to_explicit_with_file env s n Hfile), Hread.
  unfold ExplicitSolvent_init. split.
  - intros e. destruct (n <=? 0); [discriminate|].
    intros [= <-]. cbn. repeat split; reflexivity.
  - intros Hpos. destruct (Z.leb_spec n 0) as [Hle|_]; [lia | reflexivity].
Qed.

Lemma to_explicit_assembly_witness :
  get_solvent water_lib (Some "water") "explicit" (Some 5)
  = ([], Ok (Some (Explicit
       (mkExplicitSolvent (mkSpecies "water" 0 1 water_atoms) 5 None
          ["water"; "water"; "h2o"])))).
Proof.
  unfold get_solvent.
  rewrite (get_solvent_from_explicit water_lib solvents "water" "explicit" 5 eq_refl).
  rewrite (get_solvent_loop_found water_lib solvents "water" (AsExplicit 5) 0%nat
             (ImplicitSolvent "water" (Some "O") (Some ["water"; "h2o"])
                [("orca", "water"); ("g09", "Water"); ("nwchem", "water");
                 ("xtb", "Water"); ("mopac", "water"); ("qchem", "water")])
             eq_refl eq_refl).
  unfold deliver.
  rewrite (proj2 (to_explicit_assembly water_lib
             (ImplicitSolvent "water" (Some "O") (Some ["water"; "h2o"])
                [("orca", "water"); ("g09", "Water"); ("nwchem", "water");
                 ("xtb", "Water"); ("mopac", "water"); ("qchem", "water")])
             5 water_atoms eq_refl eq_refl) ltac:(lia)).
  reflexivity.
Defined.

(** ** The count of an explicit request *)

(** C2, as the claim states it, fails where the matched record has no
    coordinate file: the count 0 is then not rejected as an invalid
    argument, the request raises the [IOError] of the missing file. *)
Lemma zero_count_without_structure_file :
  get_solvent_ref solvents "water" = Some 0%nat
  /\ (0 <= 0)
  /\ get_solvent empty_lib (Some "water") "explicit" (Some 0)
     = ([], Raise (IOError
              "Could not convert water to explicit solvent /autode/solvent/lib/water.xyz did not exist"))
  /\ is_ValueError (get_solvent empty_lib (Some "water") "explicit" (Some 0)).2
     = false.
Proof. repeat split; try reflexivity. Qed.

(** C2 (amended): with [kind='explicit'] an absent count raises
    [ValueError], whatever the name is. A present count is not looked at
    by [get_solvent] nor by [to_explicit] before the coordinate file: for a
    name that resolves to a record and a count that is zero or negative,
    the request raises the [IOError] of the missing file when the record
    has no coordinate file, passes on the error of the reader when the file
    cannot be read, and raises [ValueError] from the constructor of the
    explicit solvent once the file is read. *)
Theorem explicit_count_validation (env : Env) (registry : list Solvent)
    (solvent_name kind : string) :
  lower kind = "explicit" ->
  get_solvent_from env registry (Some solvent_name) kind None
  = ([], Raise (ValueError
           "Requested an explicit solvent but number of explicit solvent molecules was not defined"))
  /\ (forall r s n,
        get_solvent_ref registry solvent_name = Some r ->
        registry !! r = Some s ->
        n <= 0 ->
        get_solvent_from env registry (Some solvent_name) kind (Some n)
        = ([], if os_path_exists env (xyz_path_of env s) then
                 match xyz_file_to_atoms env (xyz_path_of env s) with
                 | Raise err => Raise err
                 | Ok _ => Raise (ValueError "count must be a positive integer")
                 end
               else Raise (IOError (missing_xyz_message env s)))).
Proof.
  intros Hk. split; [apply get_solvent_from_explicit_no_num; exact Hk|].
  intros r s n Hr Hs Hn.
  rewrite (get_solvent_from_explicit _ _ _ _ _ Hk).
  rewrite (get_solvent_loop_found env registry solvent_name _ r s Hr Hs).
  unfold deliver.
  destruct (os_path_exists env (xyz_path_of env s)) eqn:Hfile.
  - rewrite (to_explicit_with_file env s n Hfile).
    destruct (xyz_file_to_atoms env (xyz_path_of env s)) as [ats|err];
      [|reflexivity].
    unfold ExplicitSolvent_init.
    destruct (Z.leb_spec n 0) as [_|Hgt]; [reflexivity | lia].
  - rewrite (to_explicit_no_file env s n Hfile). reflexivity.
Qed.

Lemma explicit_count_validation_witness :
  get_solvent water_lib (Some "H2O") "EXPLICIT" None
  = ([], Raise (ValueError
           "Requested an explicit solvent but number of explicit solvent molecules was not defined"))
  /\ get_solvent water_lib (Some "H2O") "EXPLICIT" (Some (-1))
     = ([], Raise (ValueError "count must be a positive integer")).
Proof.
  split.
  - apply (proj1 (explicit_count_validation water_lib solvents "H2O" "EXPLICIT"
                    eq_refl)).
  - apply (proj2 (explicit_count_validation water_lib solvents "H2O" "EXPLICIT"
                    eq_refl)
             0%nat
             (ImplicitSolvent "water" (Some "O") (Some ["water"; "h2o"])
                [("orca", "water"); ("g09", "Water"); ("nwchem", "water");
                 ("xtb", "Water"); ("mopac", "water"); ("qchem", "water")])
             (-1)).
    + reflexivity.
    + reflexivity.
    + lia.
Defined.

(** ** Resolution by alias *)

Lemma aliases_reach_their_record_sound (registry : list Solvent) :
  aliases_reach_their_record registry = true ->
  forall i R a,
    registry !! i = Some R -> a ∈ aliases R ->
    match_index registry (lower a) = Some i.
Proof.
  unfold aliases_reach_their_record. intros Hall i R a Hi Ha.
  rewrite forallb_forall in Hall.
  assert (Hin : In (i, R) (imap pair registry)).
  { apply list_elem_of_In. apply list_elem_of_lookup. exists i.
    rewrite list_lookup_imap, Hi. reflexivity. }
  specialize (Hall (i, R) Hin). cbn in Hall.
  rewrite forallb_forall in Hall.
  specialize (Hall a (proj1 (list_elem_of_In _ _) Ha)).
  apply bool_decide_eq_true in Hall. exact Hall.
Qed.

Lemma solvents_aliases_reach_their_record :
  aliases_reach_their_record solvents = true.
Proof. vm_compute. reflexivity. Qed.

Lemma get_solvent_by_alias (env : Env) (R : Solvent) (a s kind : string)
    (num : option Z) :
  R ∈ solvents -> a ∈ aliases R -> lower s = lower a ->
  lower kind = "implicit" ->
  get_solvent env (Some s) kind num = ([], Ok (Some (Implicit R))).
Proof.
  intros HR Ha Hs Hk. apply list_elem_of_lookup in HR as [i Hi].
  unfold get_solvent. rewrite (get_solvent_from_implicit _ _ _ _ _ Hk).
  rewrite (get_solvent_loop_found env solvents s AsImplicit i R);
    [reflexivity | | exact Hi].
  rewrite Hs.
  exact (aliases_reach_their_record_sound solvents
           solvents_aliases_reach_their_record i R a Hi Ha).
Qed.

Lemma name_is_alias (R : Solvent) : R ∈ solvents -> lower (name R) ∈ aliases R.
Proof.
  assert (Hall : forallb (fun R => str_in (lower (name R)) (aliases R)) solvents
                 = true) by (vm_compute; reflexivity).
  intros HR. rewrite forallb_forall in Hall.
  apply str_in_true. apply Hall. apply list_elem_of_In. exact HR.
Qed.

(** C4: for every record [R] of the registry and every alias [a] of [R],
    a name that equals [a] up to case resolves, with kind implicit, to [R]
    itself, so to a record named [name R]; the canonical name resolves to
    the same record, and the two results are equal under [__eq__] (name
    and SMILES), as [get_solvent('H2O')] and [get_solvent('water')] are. *)
Theorem alias_resolves_to_its_record (env : Env) (R : Solvent)
    (a s kind : string) (num : option Z) :
  R ∈ solvents -> a ∈ aliases R -> lower s = lower a ->
  lower kind = "implicit" ->
  get_solvent env (Some s) kind num = ([], Ok (Some (Implicit R)))
  /\ get_solvent env (Some (name R)) kind num = ([], Ok (Some (Implicit R)))
  /\ equal_solvents (get_solvent env (Some (name R)) kind num).2
                    (get_solvent env (Some s) kind num).2 = true
  /\ equal_solvents (get_solvent env (Some "H2O") kind num).2
                    (get_solvent env (Some "water") kind num).2 = true.
Proof.
  intros HR Ha Hs Hk.
  assert (Halias := get_solvent_by_alias env R a s kind num HR Ha Hs Hk).
  assert (Hname : get_solvent env (Some (name R)) kind num
                  = ([], Ok (Some (Implicit R)))).
  { apply (get_solvent_by_alias env R (lower (name R)) (name R) kind num HR);
      [apply name_is_alias; exact HR | symmetry; apply lower_idem | exact Hk]. }
  split; [exact Halias|]. split; [exact Hname|]. split.
  - rewrite Halias, Hname. cbn. apply Solvent_eq_refl.
  - assert (Hw : exists W, W ∈ solvents /\ "h2o" ∈ aliases W /\ "water" ∈ aliases W).
    { exists (ImplicitSolvent "water" (Some "O") (Some ["water"; "h2o"])
                [("orca", "water"); ("g09", "Water"); ("nwchem", "water");
                 ("xtb", "Water"); ("mopac", "water"); ("qchem", "water")]).
      split; [apply list_elem_of_lookup; exists 0%nat; reflexivity|].
      split; apply str_in_true; reflexivity. }
    destruct Hw as (W & HW & Hh & Hwa).
    rewrite (get_solvent_by_alias env W "h2o" "H2O" kind num HW Hh eq_refl Hk).
    rewrite (get_solvent_by_alias env W "water" "water" kind num HW Hwa eq_refl Hk).
    cbn. apply Solvent_eq_refl.
Qed.

Lemma alias_resolves_to_its_record_witness :
  name <$> implicit_result
             (get_solvent empty_lib (Some "ETHOXYethane") "Implicit" None).2
  = Some "diethyl ether".
Proof.
  assert (HR : ImplicitSolvent "diethyl ether" (Some "CCOCC")
                 (Some ["diethyl ether"; "ether"; "Ethoxyethane"])
                 [("orca", "diethyl ether"); ("g09", "DiethylEther");
                  ("nwchem", "ether"); ("xtb", "Ether"); ("mopac", "ether");
                  ("qchem", "diethyl ether")] ∈ solvents).
  { apply list_elem_of_lookup. exists 9%nat. vm_compute. reflexivity. }
  rewrite (proj1 (alias_resolves_to_its_record empty_lib _ "ethoxyethane"
                    "ETHOXYethane" "Implicit" None HR
                    ltac:(apply str_in_true; reflexivity) eq_refl eq_refl)).
  reflexivity.
Defined.

(** ** Identity of the returned solvent *)

Lemma get_solvent_loop_obj_value (env : Env) (h : Heap) (registry : list nat)
    (solvent_name : string) (req : Request) :
  result_value h (get_solvent_loop_obj env h registry solvent_name req)
  = get_solvent_loop env (obj_at h <$> registry) solvent_name req.
Proof.
  induction registry as [|a rest IH]; [reflexivity|].
  cbn [get_solvent_loop_obj fmap list_fmap get_solvent_loop].
  destruct (str_in (lower solvent_name) (aliases (obj_at h a))); cbn [negb];
    [|exact IH].
  destruct (is_implicit (obj_at h a)); [|exact IH].
  destruct req as [|n]; [reflexivity|].
  destruct (to_explicit env (obj_at h a) n); reflexivity.
Qed.

Lemma get_solvent_obj_value (env : Env) (h : Heap) (registry : list nat)
    (solvent_name : option string) (kind : string) (num : option Z) :
  (get_solvent_obj env h registry solvent_name kind num).1
  = (get_solvent_from env (obj_at h <$> registry) solvent_name kind num).1
  /\ result_value h (get_solvent_obj env h registry solvent_name kind num).2
     = (get_solvent_from env (obj_at h <$> registry) solvent_name kind num).2.
Proof.
  unfold get_solvent_obj, get_solvent_from.
  destruct (str_in (lower kind) ["explicit"; "implicit"]); cbn [negb];
    [|split; reflexivity].
  destruct solvent_name as [sname|]; [|split; reflexivity].
  destruct (String.eqb (lower kind) "explicit"), num;
    split; try reflexivity; apply get_solvent_loop_obj_value.
Qed.

Lemma get_solvent_loop_obj_found (env : Env) (h : Heap) (registry : list nat)
    (solvent_name : string) (i : nat) :
  match_index (obj_at h <$> registry) (lower solvent_name) = Some i ->
  exists a,
    registry !! i = Some a
    /\ get_solvent_loop_obj env h registry solvent_name AsImplicit
       = Ok (Some (ReturnedSolvent a)).
Proof.
  revert i. induction registry as [|a rest IH]; intros i; [discriminate|].
  cbn [fmap list_fmap match_index get_solvent_loop_obj].
  destruct (str_in (lower solvent_name) (aliases (obj_at h a))); cbn [negb andb].
  - destruct (is_implicit (obj_at h a)).
    + intros [= <-]. exists a. split; reflexivity.
    + destruct (match_index (obj_at h <$> rest) (lower solvent_name)) as [j|] eqn:Hj;
        [|discriminate].
      intros [= <-]. destruct (IH j eq_refl) as (b & Hb & Hres). exists b. auto.
  - destruct (match_index (obj_at h <$> rest) (lower solvent_name)) as [j|] eqn:Hj;
      [|discriminate].
    intros [= <-]. destruct (IH j eq_refl) as (b & Hb & Hres). exists b. auto.
Qed.

Lemma module_registry_allocated :
  Forall (fun a => (a < fresh module_heap)%nat) module_registry.
Proof.
  apply Forall_forall. intros a Ha. apply elem_of_seq in Ha.
  unfold module_heap. cbn [fresh]. lia.
Qed.

(** C1, as the claim states it, fails: [get_solvent('water', 'implicit')]
    returns the address of the first object of the registry (a copy would
    be a new object, at the first free address), and renaming the returned
    object renames the registry entry, so that the next resolution of
    ['water'] returns a solvent named ['heavy water']. *)
Lemma returned_solvent_is_registry_object :
  get_solvent_obj empty_lib module_heap module_registry (Some "water")
    "implicit" None
  = ([], Ok (Some (ReturnedSolvent 0%nat)))
  /\ module_registry !! 0%nat = Some 0%nat
  /\ (Solvent_copy module_heap 0%nat).2 = 184%nat
  /\ name (obj_at module_heap 0%nat) = "water"
  /\ name (obj_at (mutate (set_name "heavy water") 0%nat module_heap) 0%nat)
     = "heavy water"
  /\ obj_at (mutate (set_name "heavy water") 0%nat module_heap) <$> module_registry
     <> obj_at module_heap <$> module_registry
  /\ name <$> implicit_result
                (get_solvent_from empty_lib
                   (obj_at (mutate (set_name "heavy water") 0%nat module_heap)
                      <$> module_registry)
                   (Some "water") "implicit" None).2
     = Some "heavy water".
Proof.
  split; [vm_compute; reflexivity|]. split; [reflexivity|].
  split; [reflexivity|]. split; [reflexivity|]. split; [reflexivity|].
  split; [|vm_compute; reflexivity].
  intros Heq.
  assert (Hn : name <$> (obj_at (mutate (set_name "heavy water") 0%nat module_heap)
                           <$> module_registry) !! 0%nat
               = name <$> (obj_at module_heap <$> module_registry) !! 0%nat)
    by (rewrite Heq; reflexivity).
  vm_compute in Hn. discriminate.
Qed.

(** C1 (amended): for every name (in ASCII) that matches an implicit
    record of the registry and kind implicit, [get_solvent] returns the
    matched registry object itself: the address the registry holds, which
    is not the address a copy would have, with the value of the entry. No
    copy is made: every mutation made through the returned object is a
    mutation of that registry entry. A [copy] of the returned object is a
    new object with the same value that the registry does not hold, and
    mutating it changes no registry entry. *)
Theorem get_solvent_returns_registry_entry (env : Env) (h : Heap)
    (registry : list nat) (solvent_name kind : string) (num : option Z) (i : nat) :
  is_ascii solvent_name = true ->
  lower kind = "implicit" ->
  Forall (fun a => (a < fresh h)%nat) registry ->
  get_solvent_ref (obj_at h <$> registry) solvent_name = Some i ->
  exists a,
    registry !! i = Some a
    /\ get_solvent_obj env h registry (Some solvent_name) kind num
       = ([], Ok (Some (ReturnedSolvent a)))
    /\ get_solvent_from env (obj_at h <$> registry) (Some solvent_name) kind num
       = ([], Ok (Some (Implicit (obj_at h a))))
    /\ a <> (Solvent_copy h a).2
    /\ (forall f : Solvent -> Solvent,
          obj_at (mutate f a h) a = f (obj_at h a)
          /\ (obj_at (mutate f a h) <$> registry) !! i = Some (f (obj_at h a)))
    /\ ((Solvent_copy h a).2 ∉ registry)
    /\ obj_at (Solvent_copy h a).1 (Solvent_copy h a).2 = obj_at h a
    /\ (forall f : Solvent -> Solvent,
          obj_at (mutate f (Solvent_copy h a).2 (Solvent_copy h a).1)
                 (Solvent_copy h a).2 = f (obj_at h a)
          /\ obj_at (mutate f (Solvent_copy h a).2 (Solvent_copy h a).1)
               <$> registry
             = obj_at h <$> registry).
Proof.
  intros _ Hk Hwf Hi.
  destruct (get_solvent_loop_obj_found env h registry solvent_name i Hi)
    as (a & Ha & Hloop).
  assert (Hlt : (a < fresh h)%nat).
  { rewrite Forall_forall in Hwf. apply Hwf.
    apply list_elem_of_lookup. exists i. exact Ha. }
  assert (Hfresh : fresh h ∉ registry).
  { intros Hin. rewrite Forall_forall in Hwf. specialize (Hwf _ Hin). lia. }
  exists a. split; [exact Ha|]. split.
  { unfold get_solvent_obj. rewrite Hk. cbn. rewrite Hloop. reflexivity. }
  split.
  { rewrite (get_solvent_from_implicit _ _ _ _ _ Hk).
    rewrite <- get_solvent_loop_obj_value, Hloop. reflexivity. }
  split; [cbn; lia|]. split.
  { intros f. assert (Hat : obj_at (mutate f a h) a = f (obj_at h a))
      by (cbn; rewrite Nat.eqb_refl; reflexivity).
    split; [exact Hat|]. rewrite list_lookup_fmap, Ha. exact (f_equal Some Hat). }
  split; [exact Hfresh|]. split; [cbn; rewrite Nat.eqb_refl; reflexivity|].
  intros f. split; [cbn; rewrite !Nat.eqb_refl; reflexivity|].
  apply Forall_fmap_ext. apply Forall_forall. intros b Hb. cbn.
  assert (Hne : b <> fresh h) by (intros ->; exact (Hfresh Hb)).
  apply Nat.eqb_neq in Hne. rewrite !Hne. reflexivity.
Qed.

Lemma get_solvent_returns_registry_entry_witness :
  exists a,
    module_registry !! 1%nat = Some a
    /\ get_solvent_obj empty_lib module_heap module_registry (Some "DCM")
         "Implicit" None
       = ([], Ok (Some (ReturnedSolvent a)))
    /\ get_solvent_from empty_lib (obj_at module_heap <$> module_registry)
         (Some "DCM") "Implicit" None
       = ([], Ok (Some (Implicit (obj_at module_heap a))))
    /\ a <> (Solvent_copy module_heap a).2
    /\ (forall f : Solvent -> Solvent,
          obj_at (mutate f a module_heap) a = f (obj_at module_heap a)
          /\ (obj_at (mutate f a module_heap) <$> module_registry) !! 1%nat
             = Some (f (obj_at module_heap a)))
    /\ ((Solvent_copy module_heap a).2 ∉ module_registry)
    /\ obj_at (Solvent_copy module_heap a).1 (Solvent_copy module_heap a).2
       = obj_at module_heap a
    /\ (forall f : Solvent -> Solvent,
          obj_at (mutate f (Solvent_copy module_heap a).2
                    (Solvent_copy module_heap a).1)
                 (Solvent_copy module_heap a).2 = f (obj_at module_heap a)
          /\ obj_at (mutate f (Solvent_copy module_heap a).2
                       (Solvent_copy module_heap a).1)
               <$> module_registry
             = obj_at module_heap <$> module_registry).
Proof.
  apply (get_solvent_returns_registry_entry empty_lib module_heap module_registry
           "DCM" "Implicit" None 1%nat).
  - reflexivity.
  - reflexivity.
  - exact module_registry_allocated.
  - vm_compute. reflexivity.
Defined.

(** * Further properties of the module *)

(** ** Equality of solvents *)

Lemma option_str_eqb_eq (a b : option string) :
  option_str_eqb a b = true <-> a = b.
Proof.
  destruct a as [v|], b as [w|]; simpl;
    try (split; [discriminate | intros [=]]);
    try (split; reflexivity).
  rewrite String.eqb_eq. split; [intros ->; reflexivity | intros [=]; assumption].
Qed.

Lemma Solvent_eq_spec (s t : Solvent) :
  Solvent_eq s (Some t) = true <-> name s = name t /\ smiles s = smiles t.
Proof.
  unfold Solvent_eq. rewrite andb_true_iff, String.eqb_eq, option_str_eqb_eq.
  reflexivity.
Qed.

(** X1: [__eq__] compares the name and the SMILES string and nothing else
    (aliases, keyword attributes and class play no part); it is false
    against [None], and on solvents it is reflexive, symmetric and
    transitive. *)
Theorem Solvent_eq_equivalence (s t u : Solvent) :
  (Solvent_eq s (Some t) = true <-> name s = name t /\ smiles s = smiles t)
  /\ Solvent_eq s None = false
  /\ Solvent_eq s (Some s) = true
  /\ Solvent_eq s (Some t) = Solvent_eq t (Some s)
  /\ (Solvent_eq s (Some t) = true -> Solvent_eq t (Some u) = true ->
      Solvent_eq s (Some u) = true).
Proof.
  split; [apply Solvent_eq_spec|]. split; [reflexivity|].
  split; [apply Solvent_eq_refl|]. split.
  - destruct (Solvent_eq s (Some t)) eqn:Hst, (Solvent_eq t (Some s)) eqn:Hts;
      try reflexivity.
    + apply Solvent_eq_spec in Hst as [Hn Hs].
      assert (Solvent_eq t (Some s) = true) as Habs
        by (apply Solvent_eq_spec; split; congruence).
      congruence.
    + apply Solvent_eq_spec in Hts as [Hn Hs].
      assert (Solvent_eq s (Some t) = true) as Habs
        by (apply Solvent_eq_spec; split; congruence).
      congruence.
  - intros Hst Htu. apply Solvent_eq_spec in Hst as [Hn1 Hs1].
    apply Solvent_eq_spec in Htu as [Hn2 Hs2].
    apply Solvent_eq_spec. split; congruence.
Qed.

Lemma Solvent_eq_equivalence_witness :
  Solvent_eq (ImplicitSolvent "water" (Some "O") (Some ["h2o"]) [("orca", "water")])
             (Some (Solvent_init ExplicitSolventClass "water" (Some "O") None ∅))
  = true.
Proof.
  apply (proj2 (proj2 (proj2 (proj2
           (Solvent_eq_equivalence
              (ImplicitSolvent "water" (Some "O") (Some ["h2o"]) [("orca", "water")])
              (ImplicitSolvent "water" (Some "O") None [])
              (Solvent_init ExplicitSolventClass "water" (Some "O") None ∅))))));
    reflexivity.
Defined.

(** ** Keyword attributes *)

(** X2: the constructor stores the name, the SMILES string and the class
    as given (the name keeps its case), and every keyword other than [g16]
    becomes an attribute with the value given; when [g09] is not among the
    keywords the attributes are exactly the keywords. *)
Theorem Solvent_init_keeps_keywords (c : SolventClass) (n : string)
    (sm : option string) (als : option (list string)) (kwargs : gmap string string) :
  name (Solvent_init c n sm als kwargs) = n
  /\ smiles (Solvent_init c n sm als kwargs) = sm
  /\ cls (Solvent_init c n sm als kwargs) = c
  /\ (forall k, k <> "g16" ->
        attrs (Solvent_init c n sm als kwargs) !! k = kwargs !! k)
  /\ (kwargs !! "g09" = None -> attrs (Solvent_init c n sm als kwargs) = kwargs).
Proof.
  split; [reflexivity|]. split; [reflexivity|]. split; [reflexivity|].
  unfold Solvent_init. cbn [attrs].
  rewrite (right_id_L ∅ (∪) kwargs). split.
  - intros k Hk. destruct (kwargs !! "g09") as [v|]; [|reflexivity].
    apply lookup_insert_ne. congruence.
  - intros Hno. rewrite Hno. reflexivity.
Qed.

Lemma Solvent_init_keeps_keywords_witness :
  attrs (ImplicitSolvent "Water" (Some "O") None
           [("orca", "water"); ("g09", "Water")]) !! "orca" = Some "water"
  /\ attrs (ImplicitSolvent "Water" (Some "O") None
              [("orca", "water"); ("g16", "H2O")])
     = dict [("orca", "water"); ("g16", "H2O")].
Proof.
  split.
  - unfold ImplicitSolvent.
    rewrite (proj1 (proj2 (proj2 (proj2
               (Solvent_init_keeps_keywords ImplicitSolventClass "Water" (Some "O")
                  None (dict [("orca", "water"); ("g09", "Water")])))))
               "orca" ltac:(discriminate)).
    reflexivity.
  - apply (proj2 (proj2 (proj2 (proj2
             (Solvent_init_keeps_keywords ImplicitSolventClass "Water" (Some "O")
                None (dict [("orca", "water"); ("g16", "H2O")])))))).
    reflexivity.
Defined.

(** ** What [get_solvent] returns *)

Lemma deliver_not_None (env : Env) (s : Solvent) (req : Request) :
  deliver env s req <> Ok None.
Proof.
  destruct req as [|n]; simpl; [discriminate|].
  destruct (to_explicit env s n); discriminate.
Qed.

Lemma get_solvent_loop_not_None (env : Env) (registry : list Solvent)
    (solvent_name : string) (req : Request) :
  get_solvent_loop env registry solvent_name req <> Ok None.
Proof.
  rewrite get_solvent_loop_match_index.
  destruct (match_index registry (lower solvent_name)) as [i|]; [|discriminate].
  destruct (registry !! i); [apply deliver_not_None | discriminate].
Qed.

Lemma valid_kind_cases (kind : string) :
  (lower kind = "implicit" \/ lower kind = "explicit")
  \/ str_in (lower kind) ["explicit"; "implicit"] = false.
Proof.
  destruct (str_in (lower kind) ["explicit"; "implicit"]) eqn:Hin.
  - left. apply str_in_kinds in Hin. tauto.
  - right. reflexivity.
Qed.

(** X3: [get_solvent] returns [None] exactly when no name is given and
    [kind] is valid; a call with a name either returns a solvent or
    raises. A warning is logged in that case and in no other. *)
Theorem None_only_without_name (env : Env) (registry : list Solvent)
    (solvent_name : option string) (kind : string) (num : option Z) :
  ((get_solvent_from env registry solvent_name kind num).2 = Ok None
   <-> solvent_name = None /\ (lower kind = "implicit" \/ lower kind = "explicit"))
  /\ ((get_solvent_from env registry solvent_name kind num).1 <> []
      <-> solvent_name = None /\ (lower kind = "implicit" \/ lower kind = "explicit")).
Proof.
  destruct (valid_kind_cases kind) as [Hvalid|Hbad].
  - destruct solvent_name as [sname|].
    + assert (Hres : (get_solvent_from env registry (Some sname) kind num).2 <> Ok None
                     /\ (get_solvent_from env registry (Some sname) kind num).1 = []).
      { destruct Hvalid as [Hi|He].
        - rewrite (get_solvent_from_implicit _ _ _ _ _ Hi). split;
            [apply get_solvent_loop_not_None | reflexivity].
        - destruct num as [n|].
          + rewrite (get_solvent_from_explicit _ _ _ _ _ He). split;
              [apply get_solvent_loop_not_None | reflexivity].
          + rewrite (get_solvent_from_explicit_no_num _ _ _ _ He). split;
              [discriminate | reflexivity]. }
      destruct Hres as [Hres Hlog]. rewrite Hlog. split; split.
      * intros Habs. destruct (Hres Habs).
      * intros [[=] _].
      * intros Habs. destruct (Habs eq_refl).
      * intros [[=] _].
    + rewrite (get_solvent_from_no_name _ _ _ _ Hvalid). cbn.
      split; split; auto; discriminate.
  - assert (Hnot : ~ (lower kind = "implicit" \/ lower kind = "explicit")).
    { intros Hk. assert (Hin : str_in (lower kind) ["explicit"; "implicit"] = true)
        by (apply str_in_kinds; tauto). congruence. }
    unfold get_solvent_from. rewrite Hbad. cbn. split; split.
    + discriminate.
    + intros [_ Hk]. destruct (Hnot Hk).
    + intros Habs. destruct (Habs eq_refl).
    + intros [_ Hk]. destruct (Hnot Hk).
Qed.

(** X4: with kind implicit the result depends neither on [num] nor on
    the file system: no file is looked for and any count is ignored. *)
Theorem implicit_ignores_num_and_files (env env' : Env) (registry : list Solvent)
    (solvent_name : option string) (kind : string) (num num' : option Z) :
  lower kind = "implicit" ->
  get_solvent_from env registry solvent_name kind num
  = get_solvent_from env' registry solvent_name kind num'.
Proof.
  intros Hk. destruct solvent_name as [sname|].
  - rewrite !(get_solvent_from_implicit _ _ _ _ _ Hk).
    rewrite !get_solvent_loop_match_index.
    destruct (match_index registry (lower sname)) as [i|]; [|reflexivity].
    destruct (registry !! i); reflexivity.
  - rewrite !get_solvent_from_no_name by (left; exact Hk). reflexivity.
Qed.

Lemma implicit_ignores_num_and_files_witness :
  get_solvent_from empty_lib solvents (Some "THF") "Implicit" (Some (-7))
  = get_solvent_from water_lib solvents (Some "THF") "Implicit" None.
Proof.
  apply (implicit_ignores_num_and_files empty_lib water_lib solvents (Some "THF")
           "Implicit" (Some (-7)) None).
  reflexivity.
Defined.

(** ** The order of the registry *)

Lemma match_index_app (pre : list Solvent) (s : Solvent) (post : list Solvent)
    (lname : string) :
  Forall (fun R => lname ∈ aliases R -> is_implicit R = false) pre ->
  lname ∈ aliases s -> is_implicit s = true ->
  match_index (pre ++ s :: post) lname = Some (length pre).
Proof.
  intros Hpre Hin Himp. induction Hpre as [|R pre HR Hpre IH]; simpl.
  - apply str_in_true in Hin. rewrite Hin, Himp. reflexivity.
  - destruct (str_in lname (aliases R)) eqn:HinR; simpl.
    + rewrite (HR (proj1 (str_in_true _ _) HinR)). rewrite IH. reflexivity.
    + rewrite IH. reflexivity.
Qed.

(** X5: the first record that matches wins. Whatever follows it in the
    registry, also a record with the same alias, the request returns the
    first implicit record whose aliases hold the lower-cased name; records
    before it that hold the alias but are not implicit are passed over. *)
Theorem first_match_wins (env : Env) (pre : list Solvent) (s : Solvent)
    (post : list Solvent) (solvent_name kind : string) (num : option Z) :
  lower kind = "implicit" ->
  Forall (fun R => lower solvent_name ∈ aliases R -> is_implicit R = false) pre ->
  lower solvent_name ∈ aliases s ->
  is_implicit s = true ->
  get_solvent_from env (pre ++ s :: post) (Some solvent_name) kind num
  = ([], Ok (Some (Implicit s))).
Proof.
  intros Hk Hpre Hin Himp.
  rewrite (get_solvent_from_implicit _ _ _ _ _ Hk).
  rewrite (get_solvent_loop_found env (pre ++ s :: post) solvent_name AsImplicit
             (length pre) s).
  - reflexivity.
  - apply match_index_app; assumption.
  - rewrite lookup_app_r by lia. rewrite Nat.sub_diag. reflexivity.
Qed.

Lemma first_match_wins_witness :
  get_solvent_from empty_lib shared_alias_registry (Some "Ether") "implicit" None
  = ([], Ok (Some (Implicit
       (ImplicitSolvent "diethyl ether" (Some "CCOCC") (Some ["ether"]) [])))).
Proof.
  apply (first_match_wins empty_lib []
           (ImplicitSolvent "diethyl ether" (Some "CCOCC") (Some ["ether"]) [])
           [ImplicitSolvent "petroleum ether" None (Some ["ether"; "ligroin"]) []]
           "Ether" "implicit" None).
  - reflexivity.
  - constructor.
  - apply str_in_true. reflexivity.
  - reflexivity.
Defined.

(** X6: for a name in ASCII, an implicit solvent is returned only for
    kind implicit, and it is then a record of the registry that is
    implicit and holds the lower-cased name among its aliases. *)
Theorem returned_solvent_is_matching_record (env : Env) (registry : list Solvent)
    (solvent_name kind : string) (num : option Z) (s : Solvent) :
  is_ascii solvent_name = true ->
  (get_solvent_from env registry (Some solvent_name) kind num).2
  = Ok (Some (Implicit s)) ->
  lower kind = "implicit"
  /\ s ∈ registry
  /\ is_implicit s = true
  /\ lower solvent_name ∈ aliases s.
Proof.
  intros _ Hres.
  assert (Hdel : forall req,
             get_solvent_loop env registry solvent_name req = Ok (Some (Implicit s)) ->
             req = AsImplicit
             /\ s ∈ registry /\ is_implicit s = true
             /\ lower solvent_name ∈ aliases s).
  { intros req. rewrite get_solvent_loop_match_index.
    destruct (match_index registry (lower solvent_name)) as [i|] eqn:Hi;
      [|discriminate].
    destruct (match_index_Some _ _ _ Hi) as (t & Ht & Hin & Himp).
    rewrite Ht. destruct req as [|n]; simpl.
    - intros [= <-]. split; [reflexivity|]. split; [|auto].
      apply list_elem_of_lookup. exists i. exact Ht.
    - destruct (to_explicit env t n); discriminate. }
  destruct (valid_kind_cases kind) as [[Hi|He]|Hbad].
  - rewrite (get_solvent_from_implicit _ _ _ _ _ Hi) in Hres.
    destruct (Hdel _ Hres) as (_ & Hrest). split; [exact Hi | exact Hrest].
  - destruct num as [n|].
    + rewrite (get_solvent_from_explicit _ _ _ _ _ He) in Hres.
      destruct (Hdel _ Hres) as ([=] & _).
    + rewrite (get_solvent_from_explicit_no_num _ _ _ _ He) in Hres.
      discriminate.
  - unfold get_solvent_from in Hres. rewrite Hbad in Hres. discriminate.
Qed.

Lemma returned_solvent_is_matching_record_witness :
  lower "Implicit" = "implicit"
  /\ ImplicitSolvent "petroleum ether" None (Some ["ether"; "ligroin"]) []
     ∈ shared_alias_registry
  /\ is_implicit (ImplicitSolvent "petroleum ether" None (Some ["ether"; "ligroin"]) [])
     = true
  /\ lower "Ligroin"
     ∈ aliases (ImplicitSolvent "petroleum ether" None (Some ["ether"; "ligroin"]) []).
Proof.
  apply (returned_solvent_is_matching_record empty_lib shared_alias_registry
           "Ligroin" "Implicit" (Some 4)).
  - reflexivity.
  - vm_compute. reflexivity.
Defined.

(** X7: with kind implicit and a name in ASCII, [SolventNotFound] is
    raised exactly when no implicit record of the registry holds the
    lower-cased name among its aliases; its message ends with the name as
    the caller wrote it. *)
Theorem not_found_iff_no_implicit_match (env : Env) (registry : list Solvent)
    (solvent_name kind : string) (num : option Z) :
  is_ascii solvent_name = true ->
  lower kind = "implicit" ->
  (is_SolventNotFound
     (get_solvent_from env registry (Some solvent_name) kind num).2 = true
   <-> Forall (fun R => lower solvent_name ∈ aliases R -> is_implicit R = false)
              registry)
  /\ (is_SolventNotFound
        (get_solvent_from env registry (Some solvent_name) kind num).2 = true ->
      get_solvent_from env registry (Some solvent_name) kind num
      = ([], Raise (SolventNotFound
               ("No matching solvent in the library for " ++ solvent_name)))).
Proof.
  intros _ Hk. rewrite (get_solvent_from_implicit _ _ _ _ _ Hk).
  rewrite get_solvent_loop_match_index. rewrite <- match_index_None.
  destruct (match_index registry (lower solvent_name)) as [i|] eqn:Hi.
  - destruct (match_index_Some _ _ _ Hi) as (t & Ht & _). rewrite Ht. cbn.
    split; [split; discriminate | discriminate].
  - cbn. split; [split; reflexivity | reflexivity].
Qed.

Lemma not_found_iff_no_implicit_match_witness :
  get_solvent_from empty_lib
    [Solvent_init ExplicitSolventClass "brine" None (Some ["salt water"]) ∅]
    (Some "Salt Water") "implicit" None
  = ([], Raise (SolventNotFound "No matching solvent in the library for Salt Water")).
Proof.
  apply (proj2 (not_found_iff_no_implicit_match empty_lib
                  [Solvent_init ExplicitSolventClass "brine" None
                     (Some ["salt water"]) ∅]
                  "Salt Water" "implicit" None eq_refl eq_refl)).
  reflexivity.
Defined.

(** X8: the name is compared case-insensitively in every registry: two
    names with the same lower-case form give the same result, except that
    the [SolventNotFound] raised when neither matches quotes each name as
    it was written. *)
Theorem name_is_case_insensitive (env : Env) (registry : list Solvent)
    (s s' kind : string) (num : option Z) :
  lower s = lower s' ->
  get_solvent_from env registry (Some s) kind num
  = get_solvent_from env registry (Some s') kind num
  \/ (get_solvent_from env registry (Some s) kind num
      = ([], Raise (SolventNotFound ("No matching solvent in the library for " ++ s)))
      /\ get_solvent_from env registry (Some s') kind num
         = ([], Raise (SolventNotFound
                  ("No matching solvent in the library for " ++ s')))).
Proof.
  intros Hs.
  assert (Hloop : forall req,
             get_solvent_loop env registry s req = get_solvent_loop env registry s' req
             \/ (get_solvent_loop env registry s req
                 = Raise (SolventNotFound ("No matching solvent in the library for " ++ s))
                 /\ get_solvent_loop env registry s' req
                    = Raise (SolventNotFound
                        ("No matching solvent in the library for " ++ s')))).
  { intros req. rewrite !get_solvent_loop_match_index, Hs.
    destruct (match_index registry (lower s')) as [i|] eqn:Hi; [|right; auto].
    destruct (match_index_Some _ _ _ Hi) as (t & Ht & _). rewrite Ht. left.
    reflexivity. }
  destruct (valid_kind_cases kind) as [[Hi|He]|Hbad].
  - rewrite !(get_solvent_from_implicit _ _ _ _ _ Hi).
    destruct (Hloop AsImplicit) as [-> | [-> ->]]; auto.
  - destruct num as [n|].
    + rewrite !(get_solvent_from_explicit _ _ _ _ _ He).
      destruct (Hloop (AsExplicit n)) as [-> | [-> ->]]; auto.
    + rewrite !(get_solvent_from_explicit_no_num _ _ _ _ He). left. reflexivity.
  - left. unfold get_solvent_from. rewrite Hbad. reflexivity.
Qed.

Lemma name_is_case_insensitive_witness :
  get_solvent_from water_lib solvents (Some "WATER") "explicit" (Some 2)
  = get_solvent_from water_lib solvents (Some "Water") "explicit" (Some 2).
Proof.
  destruct (name_is_case_insensitive water_lib solvents "WATER" "Water" "explicit"
              (Some 2) eq_refl) as [Heq | [Habs _]].
  - exact Heq.
  - vm_compute in Habs. discriminate Habs.
Defined.

(** X9: a record built by [ImplicitSolvent] from a name and aliases in
    ASCII is found under its own name and under each alias it was declared
    with, in any (ASCII) casing, from every registry in which no implicit
    record before it holds that alias. *)
Theorem constructed_record_is_found (env : Env) (pre post : list Solvent)
    (n : string) (sm : option string) (als : option (list string))
    (kwargs : list (string * string)) (d solvent_name kind : string)
    (num : option Z) :
  is_ascii n = true ->
  Forall (fun a => is_ascii a = true) (default [] als) ->
  is_ascii solvent_name = true ->
  lower kind = "implicit" ->
  d = n \/ d ∈ default [] als ->
  lower solvent_name = lower d ->
  Forall (fun R => lower d ∈ aliases R -> is_implicit R = false) pre ->
  get_solvent_from env (pre ++ ImplicitSolvent n sm als kwargs :: post)
    (Some solvent_name) kind num
  = ([], Ok (Some (Implicit (ImplicitSolvent n sm als kwargs)))).
Proof.
  intros _ _ _ Hk Hd Hs Hpre.
  assert (Hin : lower d ∈ aliases (ImplicitSolvent n sm als kwargs)).
  { unfold ImplicitSolvent. rewrite Solvent_init_aliases.
    destruct Hd as [-> | Hd].
    - apply elem_of_cons. left. reflexivity.
    - apply elem_of_cons. right. apply list_elem_of_fmap. exists d. auto. }
  rewrite (get_solvent_from_implicit _ _ _ _ _ Hk).
  rewrite (get_solvent_loop_found env
             (pre ++ ImplicitSolvent n sm als kwargs :: post) solvent_name
             AsImplicit (length pre) (ImplicitSolvent n sm als kwargs)).
  - reflexivity.
  - rewrite Hs. apply match_index_app; [exact Hpre | exact Hin | reflexivity].
  - rewrite lookup_app_r by lia. rewrite Nat.sub_diag. reflexivity.
Qed.

Lemma constructed_record_is_found_witness :
  get_solvent_from empty_lib
    (shared_alias_registry
     ++ ImplicitSolvent "Diglyme" None (Some ["Bis(2-methoxyethyl) ether"]) []
        :: [])%list
    (Some "BIS(2-METHOXYETHYL) ETHER") "implicit" None
  = ([], Ok (Some (Implicit
       (ImplicitSolvent "Diglyme" None (Some ["Bis(2-methoxyethyl) ether"]) [])))).
Proof.
  apply (constructed_record_is_found empty_lib shared_alias_registry []
           "Diglyme" None (Some ["Bis(2-methoxyethyl) ether"]) []
           "Bis(2-methoxyethyl) ether").
  - reflexivity.
  - repeat constructor.
  - reflexivity.
  - reflexivity.
  - right. apply elem_of_cons. left. reflexivity.
  - reflexivity.
  - apply (Forall_impl
             (fun R => lower "Bis(2-methoxyethyl) ether" ∉ aliases R)).
    + apply no_alias_Forall. vm_compute. reflexivity.
    + intros R HR Hin. destruct (HR Hin).
Defined.

Lemma match_index_unique_owner (registry registry' : list Solvent) (lname : string) :
  alias_owner_unique registry ->
  registry' ≡ₚ registry ->
  match match_index registry lname, match_index registry' lname with
  | Some i, Some j => registry !! i = registry' !! j
  | None, None => True
  | _, _ => False
  end.
Proof.
  intros Huniq Hperm.
  assert (HF : forall l1 l2 : list Solvent, l1 ≡ₚ l2 ->
             match_index l1 lname = None -> match_index l2 lname = None).
  { intros l1 l2 Hp H1. apply match_index_None. apply match_index_None in H1.
    rewrite <- Hp. exact H1. }
  destruct (match_index registry lname) as [i|] eqn:Hi;
    destruct (match_index registry' lname) as [j|] eqn:Hj.
  - destruct (match_index_Some _ _ _ Hi) as (s & Hs & Hins & Himps).
    destruct (match_index_Some _ _ _ Hj) as (t & Ht & Hint & Himpt).
    rewrite Hs, Ht. f_equal.
    assert (Htin : t ∈ registry).
    { rewrite <- Hperm. apply list_elem_of_lookup. exists j. exact Ht. }
    apply list_elem_of_lookup in Htin as [i' Hi'].
    assert (i = i') as <- by (eapply Huniq; eauto).
    congruence.
  - rewrite (HF registry' registry Hperm Hj) in Hi. discriminate.
  - symmetry in Hperm. rewrite (HF registry registry' Hperm Hi) in Hj. discriminate.
  - exact I.
Qed.

Lemma solvents_alias_owner_unique : alias_owner_unique solvents.
Proof.
  intros i j s t a Hs Ht _ _ Has Hat.
  pose proof (aliases_reach_their_record_sound solvents
                solvents_aliases_reach_their_record i s a Hs Has) as Hi.
  pose proof (aliases_reach_their_record_sound solvents
                solvents_aliases_reach_their_record j t a Ht Hat) as Hj.
  congruence.
Qed.

(** X10: when no alias is shared by two implicit records, as in the
    registry of the module, the order of the registry does not matter:
    every request gives the same result on every permutation of the
    registry. *)
Theorem order_is_irrelevant_without_shared_aliases (env : Env)
    (registry registry' : list Solvent) (solvent_name : option string)
    (kind : string) (num : option Z) :
  alias_owner_unique registry ->
  registry' ≡ₚ registry ->
  get_solvent_from env registry' solvent_name kind num
  = get_solvent_from env registry solvent_name kind num.
Proof.
  intros Huniq Hperm.
  assert (Hloop : forall sname req,
             get_solvent_loop env registry' sname req
             = get_solvent_loop env registry sname req).
  { intros sname req. rewrite !get_solvent_loop_match_index.
    pose proof (match_index_unique_owner registry registry' (lower sname)
                  Huniq Hperm) as Hm.
    destruct (match_index registry (lower sname)) as [i|] eqn:Hi;
      destruct (match_index registry' (lower sname)) as [j|] eqn:Hj.
    - rewrite Hm. reflexivity.
    - destruct Hm.
    - destruct Hm.
    - reflexivity. }
  unfold get_solvent_from.
  destruct (str_in (lower kind) ["explicit"; "implicit"]); [|reflexivity].
  destruct solvent_name as [sname|]; [|reflexivity]. cbn.
  destruct (String.eqb (lower kind) "explicit"), num; rewrite ?Hloop; reflexivity.
Qed.

Lemma order_is_irrelevant_without_shared_aliases_witness :
  get_solvent_from water_lib (reverse solvents) (Some "h2o") "explicit" (Some 3)
  = get_solvent water_lib (Some "h2o") "explicit" (Some 3).
Proof.
  apply (order_is_irrelevant_without_shared_aliases water_lib solvents
           (reverse solvents) (Some "h2o") "explicit" (Some 3)).
  - exact solvents_alias_owner_unique.
  - apply reverse_Permutation.
Defined.

(** ** More on the dielectric constant *)

Lemma dielectric_loop_None (table : gmap string Q) (als : list string) :
  dielectric_loop table als = None <-> (forall a, a ∈ als -> table !! a = None).
Proof.
  split; [|apply dielectric_loop_none].
  induction als as [|a0 rest IH]; simpl; intros Hnone a Ha.
  - apply elem_of_nil in Ha. destruct Ha.
  - destruct (table !! a0) as [eps|] eqn:H0; [discriminate|].
    apply elem_of_cons in Ha as [-> | Ha]; [exact H0 | apply IH; assumption].
Qed.

Lemma dielectric_loop_Some (table : gmap string Q) (als : list string) (eps : Q) :
  dielectric_loop table als = Some eps ->
  exists a, a ∈ als /\ table !! a = Some eps.
Proof.
  induction als as [|a0 rest IH]; simpl; [discriminate|].
  destruct (table !! a0) as [e0|] eqn:H0.
  - intros [= <-]. exists a0. split; [apply elem_of_cons; left; reflexivity | exact H0].
  - intros Hrest. destruct (IH Hrest) as (a & Ha & Hv). exists a.
    split; [apply elem_of_cons; right; exact Ha | exact Hv].
Qed.

(** X11: the dielectric is [None] exactly when no alias of the record is
    a key of the table; a value that is returned is the table value of one
    of the aliases; and the warning is logged exactly when [None] is
    returned. *)
Theorem dielectric_None_iff_no_key (table : gmap string Q) (s : Solvent) :
  ((dielectric_in table s).2 = None
   <-> forall a, a ∈ aliases s -> table !! a = None)
  /\ (forall eps, (dielectric_in table s).2 = Some eps ->
        exists a, a ∈ aliases s /\ table !! a = Some eps)
  /\ ((dielectric_in table s).1 = [] <-> is_Some (dielectric_in table s).2).
Proof.
  unfold dielectric_in.
  pose proof (dielectric_loop_None table (aliases s)) as HN.
  pose proof (dielectric_loop_Some table (aliases s)) as HS.
  destruct (dielectric_loop table (aliases s)) as [eps|]; cbn.
  - split; [|split].
    + split; [discriminate|]. intros Hnone. apply HN in Hnone. discriminate.
    + intros e [= <-]. apply HS. reflexivity.
    + split; [intros _; eexists; reflexivity | reflexivity].
  - split; [|split].
    + split; [intros _; apply HN; reflexivity | reflexivity].
    + discriminate.
    + split; [discriminate | intros [e [=]]].
Qed.

Lemma dielectric_None_iff_no_key_witness :
  exists a,
    a ∈ aliases (ImplicitSolvent "thf" (Some "C1CCOC1")
                   (Some ["thf"; "tetrahydrofuran"; "oxolane"]) [])
    /\ _solvents_and_dielectrics !! a = Some 7.43%Q.
Proof.
  apply (proj1 (proj2 (dielectric_None_iff_no_key _solvents_and_dielectrics
                         (ImplicitSolvent "thf" (Some "C1CCOC1")
                            (Some ["thf"; "tetrahydrofuran"; "oxolane"]) [])))).
  vm_compute. reflexivity.
Defined.

(** X12: the canonical name has priority: when the lower-cased name of a
    constructed solvent is a key of the table, the dielectric is the value
    under that key, whatever aliases were declared. *)
Theorem dielectric_prefers_name (table : gmap string Q) (c : SolventClass)
    (n : string) (sm : option string) (als : option (list string))
    (kwargs : gmap string string) (eps : Q) :
  table !! lower n = Some eps ->
  dielectric_in table (Solvent_init c n sm als kwargs) = ([], Some eps).
Proof.
  intros Hn. unfold dielectric_in. rewrite Solvent_init_aliases. simpl.
  rewrite Hn. reflexivity.
Qed.

Lemma dielectric_prefers_name_witness :
  dielectric_in _solvents_and_dielectrics
    (Solvent_init ImplicitSolventClass "Benzene" None (Some ["water"; "toluene"]) ∅)
  = ([], Some 2.27%Q).
Proof.
  apply (dielectric_prefers_name _solvents_and_dielectrics ImplicitSolventClass
           "Benzene" None (Some ["water"; "toluene"]) ∅ 2.27%Q).
  vm_compute. reflexivity.
Defined.

Lemma dielectric_loop_delete (table : gmap string Q) (k : string) (als : list string) :
  Forall (fun a => a <> k) als ->
  dielectric_loop (delete k table) als = dielectric_loop table als.
Proof.
  induction 1 as [|a rest Ha Hrest IH]; simpl; [reflexivity|].
  rewrite lookup_delete_ne by congruence. rewrite IH. reflexivity.
Qed.

(** X13: a key of the table that is not in lower case is never used for
    a constructed solvent, since all its aliases are in lower case:
    removing such a key from the table changes no dielectric. *)
Theorem dielectric_ignores_cased_keys (table : gmap string Q) (k : string)
    (c : SolventClass) (n : string) (sm : option string)
    (als : option (list string)) (kwargs : gmap string string) :
  lower k <> k ->
  dielectric_in (delete k table) (Solvent_init c n sm als kwargs)
  = dielectric_in table (Solvent_init c n sm als kwargs).
Proof.
  intros Hk. unfold dielectric_in.
  rewrite dielectric_loop_delete; [reflexivity|].
  rewrite Solvent_init_aliases.
  assert (Hlow : Forall (fun a => lower a = a)
                   (lower n :: map lower (default [] als))).
  { apply Forall_cons. split; [apply lower_idem|].
    apply Forall_forall. intros a Ha.
    apply list_elem_of_fmap in Ha as (b & -> & _). apply lower_idem. }
  eapply Forall_impl; [exact Hlow|]. cbn. intros a Ha ->. exact (Hk Ha).
Qed.

Lemma dielectric_ignores_cased_keys_witness :
  _solvents_and_dielectrics !! "1-ChloroPentane" = Some 6.50%Q
  /\ dielectric_in _solvents_and_dielectrics
       (Solvent_init ImplicitSolventClass "1-chloropentane" (Some "CCCCCCl")
          (Some ["1-chloropentane"; "chloropentane"]) ∅)
     = dielectric_in (delete "1-ChloroPentane" _solvents_and_dielectrics)
         (Solvent_init ImplicitSolventClass "1-chloropentane" (Some "CCCCCCl")
            (Some ["1-chloropentane"; "chloropentane"]) ∅).
Proof.
  split; [vm_compute; reflexivity|]. symmetry.
  apply (dielectric_ignores_cased_keys _solvents_and_dielectrics "1-ChloroPentane").
  vm_compute. discriminate.
Defined.

(** ** The coordinate file *)

Lemma string_app_assoc (a b c : string) : (a ++ b) ++ c = a ++ b ++ c.
Proof.
  induction a as [|ch a IH]; [reflexivity|].
  change (String ch ((a ++ b) ++ c) = String ch (a ++ b ++ c)).
  rewrite IH. reflexivity.
Qed.

Lemma startswith_slash_app (n ext : string) :
  startswith "/" ext = false ->
  startswith "/" (n ++ ext) = startswith "/" n.
Proof.
  assert (Hempty : forall t, String.prefix "" t = true) by (intros []; reflexivity).
  intros Hext. destruct n as [|ch n].
  - exact Hext.
  - unfold startswith.
    change (String ch n ++ ext) with (String ch (n ++ ext)).
    cbn [String.prefix]. destruct (ascii_dec "/" ch); [|reflexivity].
    rewrite !Hempty. reflexivity.
Qed.

Lemma endswith_char_app (ch : ascii) (a b : string) :
  b <> "" -> endswith_char ch (a ++ b) = endswith_char ch b.
Proof.
  intros Hb. induction a as [|x a IH]; [reflexivity|].
  change (String x a ++ b) with (String x (a ++ b)).
  assert (Hne : a ++ b <> "") by (destruct a; [exact Hb | discriminate]).
  cbn [endswith_char]. destruct (a ++ b) as [|y rest]; [congruence | exact IH].
Qed.

(** X14: the coordinate file of a record is [<here>/lib/<name>.xyz],
    with [here] the directory of the module, as long as the name does not
    start with a slash; a name that starts with a slash is taken as an
    absolute path, [<name>.xyz], and the directory of the module is
    dropped. *)
Theorem xyz_path_shape (env : Env) (s : Solvent) :
  (startswith "/" (name s) = false ->
   here env <> "" -> endswith_char "/" (here env) = false ->
   xyz_path_of env s = here env ++ "/lib/" ++ name s ++ ".xyz")
  /\ (startswith "/" (name s) = true -> xyz_path_of env s = name s ++ ".xyz").
Proof.
  unfold xyz_path_of, os_path_join. cbn [foldl].
  pose proof (startswith_slash_app (name s) ".xyz" eq_refl) as Hsl.
  split.
  - intros Hrel Hne Hend.
    assert (Hfirst : join_step (here env) "lib" = here env ++ "/lib").
    { unfold join_step. cbn [startswith String.prefix].
      destruct (ascii_dec "/" "l") as [Habs|_]; [discriminate Habs|].
      destruct (String.eqb_spec (here env) "") as [Hempty|_]; [contradiction|].
      rewrite Hend. reflexivity. }
    rewrite Hfirst. unfold join_step. rewrite Hsl, Hrel.
    destruct (String.eqb_spec (here env ++ "/lib") "") as [Hempty|_].
    { destruct (here env); discriminate Hempty. }
    rewrite endswith_char_app by discriminate. cbn [endswith_char Ascii.eqb orb].
    change (Ascii.eqb "b" "/") with false. cbn.
    rewrite !string_app_assoc. reflexivity.
  - intros Habs. unfold join_step at 1. rewrite Hsl, Habs. reflexivity.
Qed.

Lemma xyz_path_shape_witness :
  xyz_path_of water_lib (ImplicitSolvent "cs2" (Some "S=C=S") None [])
  = "/autode/solvent/lib/cs2.xyz"
  /\ xyz_path_of water_lib (ImplicitSolvent "/tmp/other" None None [])
     = "/tmp/other.xyz".
Proof.
  split.
  - apply (proj1 (xyz_path_shape water_lib
                    (ImplicitSolvent "cs2" (Some "S=C=S") None []))).
    + reflexivity.
    + discriminate.
    + reflexivity.
  - apply (proj2 (xyz_path_shape water_lib
                    (ImplicitSolvent "/tmp/other" None None []))).
    reflexivity.
Defined.

(** X15: [to_explicit] consults one file only: two file systems below
    the same directory that agree on the existence and the content of the
    coordinate file of the record give the same result. *)
Theorem to_explicit_reads_one_file (env env' : Env) (s : Solvent) (n : Z) :
  here env' = here env ->
  os_path_exists env' (xyz_path_of env s) = os_path_exists env (xyz_path_of env s) ->
  xyz_file_to_atoms env' (xyz_path_of env s)
  = xyz_file_to_atoms env (xyz_path_of env s) ->
  to_explicit env' s n = to_explicit env s n.
Proof.
  intros Hhere Hex Hread.
  assert (Hpath : xyz_path_of env' s = xyz_path_of env s)
    by (unfold xyz_path_of; rewrite Hhere; reflexivity).
  unfold to_explicit. rewrite Hpath, Hex, Hread. reflexivity.
Qed.

Lemma to_explicit_reads_one_file_witness :
  to_explicit
    (mkEnv "/autode/solvent" (fun _ => true) (fun _ => Ok water_atoms))
    (ImplicitSolvent "water" (Some "O") (Some ["water"; "h2o"]) []) 4
  = to_explicit water_lib
      (ImplicitSolvent "water" (Some "O") (Some ["water"; "h2o"]) []) 4.
Proof.
  apply (to_explicit_reads_one_file water_lib
           (mkEnv "/autode/solvent" (fun _ => true) (fun _ => Ok water_atoms))
           (ImplicitSolvent "water" (Some "O") (Some ["water"; "h2o"]) []) 4);
    reflexivity.
Defined.

(** X16: an exception raised by the reader of the coordinate file is not
    caught: [to_explicit] and [get_solvent] raise it unchanged, whatever
    the count is. *)
Theorem reader_error_is_passed_on (env : Env) (registry : list Solvent)
    (solvent_name kind : string) (n : Z) (r : Ref) (s : Solvent) (e : Exception) :
  lower kind = "explicit" ->
  get_solvent_ref registry solvent_name = Some r ->
  registry !! r = Some s ->
  os_path_exists env (xyz_path_of env s) = true ->
  xyz_file_to_atoms env (xyz_path_of env s) = Raise e ->
  to_explicit env s n = Raise e
  /\ get_solvent_from env registry (Some solvent_name) kind (Some n) = ([], Raise e).
Proof.
  intros Hk Hr Hs Hfile Hread.
  assert (Hto : to_explicit env s n = Raise e)
    by (rewrite (to_explicit_with_file env s n Hfile), Hread; reflexivity).
  split; [exact Hto|].
  rewrite (get_solvent_from_explicit _ _ _ _ _ Hk).
  rewrite (get_solvent_loop_found env registry solvent_name _ r s Hr Hs).
  unfold deliver. rewrite Hto. reflexivity.
Qed.

Lemma reader_error_is_passed_on_witness :
  get_solvent_from
    (mkEnv "/autode/solvent" (fun _ => true)
       (fun _ => Raise (ValueError "not a coordinate file")))
    shared_alias_registry (Some "Ligroin") "Explicit" (Some 10)
  = ([], Raise (ValueError "not a coordinate file")).
Proof.
  apply (proj2 (reader_error_is_passed_on
                  (mkEnv "/autode/solvent" (fun _ => true)
                     (fun _ => Raise (ValueError "not a coordinate file")))
                  shared_alias_registry "Ligroin" "Explicit" 10 1%nat
                  (ImplicitSolvent "petroleum ether" None
                     (Some ["ether"; "ligroin"]) [])
                  (ValueError "not a coordinate file")
                  eq_refl eq_refl eq_refl eq_refl eq_refl)).
Defined.

(** ** The records of the registry *)

Lemma solvents_names_NoDup : NoDup (name <$> solvents).
Proof. apply (bool_decide_unpack (NoDup (name <$> solvents))). vm_compute. exact I. Qed.

(** X17: the records of the registry have pairwise different names, so
    on the registry [__eq__] holds between a record and itself only: two
    records that compare equal are at the same position. *)
Theorem registry_records_are_distinct (i j : nat) (R1 R2 : Solvent) :
  solvents !! i = Some R1 ->
  solvents !! j = Some R2 ->
  Solvent_eq R1 (Some R2) = true ->
  i = j /\ R1 = R2.
Proof.
  intros H1 H2 Heq. apply Solvent_eq_spec in Heq as [Hname _].
  assert (Hij : i = j).
  { apply (NoDup_lookup (name <$> solvents) i j (name R1) solvents_names_NoDup).
    - rewrite list_lookup_fmap, H1. reflexivity.
    - rewrite list_lookup_fmap, H2, Hname. reflexivity. }
  split; [exact Hij|]. subst j. congruence.
Qed.

Lemma registry_records_are_distinct_witness :
  (180 = 180)%nat
  /\ ImplicitSolvent "quinoline" (Some "C12=CC=CC=C1N=CC=C2") (Some ["quinoline"])
       [("g09", "Quinoline"); ("mopac", "quinoline")]
     = ImplicitSolvent "quinoline" (Some "C12=CC=CC=C1N=CC=C2") (Some ["quinoline"])
         [("g09", "Quinoline"); ("mopac", "quinoline")].
Proof.
  apply (registry_records_are_distinct 180 180); vm_compute; reflexivity.
Defined.

(** ** Explicit results *)

(** X18: for a name in ASCII, an explicit solvent is returned only for
    kind explicit with a count, and it is the conversion of an implicit
    record of the registry that holds the lower-cased name among its
    aliases. *)
Theorem returned_explicit_comes_from_record (env : Env) (registry : list Solvent)
    (solvent_name kind : string) (num : option Z) (e : ExplicitSolvent) :
  is_ascii solvent_name = true ->
  (get_solvent_from env registry (Some solvent_name) kind num).2
  = Ok (Some (Explicit e)) ->
  lower kind = "explicit"
  /\ exists n s,
       num = Some n
       /\ s ∈ registry
       /\ is_implicit s = true
       /\ lower solvent_name ∈ aliases s
       /\ to_explicit env s n = Ok e.
Proof.
  intros _ Hres.
  assert (Hdel : forall req,
             get_solvent_loop env registry solvent_name req = Ok (Some (Explicit e)) ->
             exists n s,
               req = AsExplicit n
               /\ s ∈ registry /\ is_implicit s = true
               /\ lower solvent_name ∈ aliases s
               /\ to_explicit env s n = Ok e).
  { intros req. rewrite get_solvent_loop_match_index.
    destruct (match_index registry (lower solvent_name)) as [i|] eqn:Hi;
      [|discriminate].
    destruct (match_index_Some _ _ _ Hi) as (t & Ht & Hin & Himp).
    rewrite Ht. destruct req as [|n]; simpl; [discriminate|].
    destruct (to_explicit env t n) as [e'|err] eqn:Hto; [|discriminate].
    intros [= <-]. exists n, t. split; [reflexivity|]. split; [|auto].
    apply list_elem_of_lookup. exists i. exact Ht. }
  destruct (valid_kind_cases kind) as [[Hi|He]|Hbad].
  - rewrite (get_solvent_from_implicit _ _ _ _ _ Hi) in Hres.
    destruct (Hdel _ Hres) as (n & s & [=] & _).
  - split; [exact He|]. destruct num as [n|].
    + rewrite (get_solvent_from_explicit _ _ _ _ _ He) in Hres.
      destruct (Hdel _ Hres) as (n' & s & [= <-] & Hrest).
      exists n, s. split; [reflexivity | exact Hrest].
    + rewrite (get_solvent_from_explicit_no_num _ _ _ _ He) in Hres.
      discriminate.
  - unfold get_solvent_from in Hres. rewrite Hbad in Hres. discriminate.
Qed.

Lemma returned_explicit_comes_from_record_witness :
  lower "EXPLICIT" = "explicit"
  /\ exists n s,
       Some 6 = Some n
       /\ s ∈ solvents
       /\ is_implicit s = true
       /\ lower "H2O" ∈ aliases s
       /\ to_explicit water_lib s n
          = Ok (mkExplicitSolvent (mkSpecies "water" 0 1 water_atoms) 6 None
                  ["water"; "water"; "h2o"]).
Proof.
  apply (returned_explicit_comes_from_record water_lib solvents "H2O" "EXPLICIT"
           (Some 6)).
  - reflexivity.
  - vm_compute. reflexivity.
Defined.
